(** * colate: collating spreadsheet rows

    A shallow embedding of the row pipeline of [colate] (Go): [getRows]
    (reading a sheet from an offset and filling blanks from the row above),
    [prependColumns] (template-generated leading columns), [listFiles] and
    the file loop of [main].

    The repository holds three successive versions of the program.  The
    latest one (with the [rowCount] flag and templates) is embedded in
    [Module Colate]; the version of [main.go] (no [rowCount], a constant
    inserted column) is embedded in [Module MainGo].

    The functions around them follow: [writeData] and [createFile],
    [getColumns], [insertColumn] and the file loop of [main.go]. *)

From Stdlib Require Import ZArith String Ascii List Lia DecimalString.
From stdpp Require Import base tactics option list strings.

Abbreviation length := List.length.

Open Scope string_scope.
Open Scope list_scope.
Open Scope nat_scope.

(** ** Go values *)

(** Go's [int] (64 bits): a [Z] kept in range by [wrap]. *)
Definition int_min : Z := - 2 ^ 63.
Definition int_max : Z := 2 ^ 63 - 1.
Definition wrap (z : Z) : Z := ((z + 2 ^ 63) mod 2 ^ 64 - 2 ^ 63)%Z.
Definition is_int (z : Z) : Prop := (int_min ≤ z ≤ int_max)%Z.

(** A [[]string] and a [[][]string].  Rows of a sheet do not share storage
    with each other: every update below goes through the outer list. *)
Abbreviation Row := (list string).
Abbreviation Sheet := (list (list string)).

(** Run-time faults of the Go code that the functions below can raise. *)
Inductive panic : Type :=
  | IndexOutOfRange
  | SliceBoundsOutOfRange.

(** What a call does: it returns a value, returns a non-nil [error], or
    panics. *)
Inductive result (E A : Type) : Type :=
  | Returns (a : A)
  | Fails (e : E)
  | Panics (p : panic).
Arguments Returns {E A} a.
Arguments Fails {E A} e.
Arguments Panics {E A} p.

Definition result_bind {E A B} (f : A → result E B) (m : result E A)
  : result E B :=
  match m with
  | Returns a => f a
  | Fails e => Fails e
  | Panics p => Panics p
  end.

#[global] Instance result_ret {E} : MRet (result E) := λ A a, Returns a.
#[global] Instance result_mbind {E} : MBind (result E) :=
  λ A B f m, result_bind f m.

(** [rows[i]] and [rows[i][j]]: an index outside the slice panics. *)
Definition index {E A} (l : list A) (i : nat) : result E A :=
  match l !! i with
  | Some a => Returns a
  | None => Panics IndexOutOfRange
  end.

Definition index2 {E} (rows : Sheet) (i j : nat) : result E string :=
  row ← index rows i; index row j.

(** [rows[start:]]: panics unless [0 <= start <= len(rows)]. *)
Definition slice_from {E A} (l : list A) (start : Z) : result E (list A) :=
  if bool_decide (0 ≤ start ≤ Z.of_nat (length l))%Z
  then Returns (drop (Z.to_nat start) l)
  else Panics SliceBoundsOutOfRange.

(** ** Fill-down on lists

    The fill-down loop written by recursion on the rows: what the index
    loops of [getRows] compute (lemmas [fillBlanks_fillDownCount] and
    [MainGo_fillBlanks_fillDownAll]). *)
Section FillDown.
Context {E : Type}.

(** One cell: an empty cell takes the cell above it; there is a fault when
    the row above has no cell in that column. *)
Definition inheritCell (above : option string) (cell : string)
  : result E string :=
  if bool_decide (cell = EmptyString) then
    match above with
    | Some v => Returns v
    | None => Panics IndexOutOfRange
    end
  else Returns cell.

Fixpoint inheritRow (prev row : Row) : result E Row :=
  match row with
  | [] => Returns []
  | cell :: row' =>
      c ← inheritCell (head prev) cell;
      r ← inheritRow (tail prev) row';
      Returns (c :: r)
  end.

(** The rows after the first, [prev] being the filled row above; the
    countdown stops the filling, not the rows. *)
Fixpoint inheritRows (count : Z) (prev : Row) (rows : Sheet)
  : result E Sheet :=
  match rows with
  | [] => Returns []
  | row :: rows' =>
      row' ← inheritRow prev row;
      let count' := wrap (count - 1) in
      if bool_decide (count' = 0%Z) then Returns (row' :: rows')
      else rest ← inheritRows count' row' rows'; Returns (row' :: rest)
  end.

Definition fillDownCount (count : Z) (rows : Sheet) : result E Sheet :=
  match rows with
  | [] => Returns []
  | first :: rest =>
      let count' := wrap (count - 1) in
      if bool_decide (count' = 0%Z) then Returns (first :: rest)
      else rest' ← inheritRows count' first rest; Returns (first :: rest')
  end.

(** The same without a countdown (the loop of [main.go]). *)
Fixpoint inheritAll (prev : Row) (rows : Sheet) : result E Sheet :=
  match rows with
  | [] => Returns []
  | row :: rows' =>
      row' ← inheritRow prev row;
      rest ← inheritAll row' rows'; Returns (row' :: rest)
  end.

Definition fillDownAll (rows : Sheet) : result E Sheet :=
  match rows with
  | [] => Returns []
  | first :: rest => rest' ← inheritAll first rest; Returns (first :: rest')
  end.
End FillDown.

(** ** The Blank-Fill Normalizer as the specification words it

    Every row except the first; every cell that is the empty string takes
    the value of the same column of the row before it, which has been
    filled already; a column the row before does not have counts as no prior
    value and the cell stays empty.  Nothing here comes from the code. *)
Definition fillCellSpec (prev : Row) (ci : nat) (cell : string) : string :=
  if bool_decide (cell = EmptyString)
  then default EmptyString (prev !! ci)
  else cell.

Definition fillRowSpec (prev row : Row) : Row := imap (fillCellSpec prev) row.

Fixpoint fillAfterSpec (prev : Row) (rows : Sheet) : Sheet :=
  match rows with
  | [] => []
  | row :: rows' =>
      let row' := fillRowSpec prev row in row' :: fillAfterSpec row' rows'
  end.

Definition fillDownSpec (rows : Sheet) : Sheet :=
  match rows with
  | [] => []
  | first :: rest => first :: fillAfterSpec first rest
  end.

(** [covers prev row]: every empty cell of [row] has a cell above it in
    [prev]. *)
Fixpoint covers (prev row : Row) : bool :=
  match row with
  | [] => true
  | cell :: row' =>
      (negb (bool_decide (cell = EmptyString))
       || bool_decide (is_Some (head prev)))
      && covers (tail prev) row'
  end.

Fixpoint coversAll (prev : Row) (rows : Sheet) : bool :=
  match rows with
  | [] => true
  | row :: rows' => covers prev row && coversAll row rows'
  end.

(** No row after the first has an empty cell in a column that the row
    before it lacks. *)
Definition lookupsInRange (rows : Sheet) : bool :=
  match rows with
  | [] => true
  | first :: rest => coversAll first rest
  end.


(** A cell of the output against the cell of the input at the same place:
    it is kept, or the input cell was empty. *)
Definition kept (cell cell' : string) : Prop :=
  cell' = cell ∨ cell = EmptyString.

Definition noEmptyCell (row : Row) : Prop :=
  Forall (λ cell, cell ≠ EmptyString) row.

(** ** External collaborators

    [excelize], [path/filepath], [strings] and [io/ioutil] are libraries, not
    code of the repository: their functions are taken as an interface. *)
Class Platform : Type := {
  File : Type;
  error : Type;
  (** [excelize.OpenFile] *)
  OpenFile : string → error + File;
  (** the [GetRows] method of a [File] *)
  GetRows : File → string → Sheet;
  (** [filepath.Base], [filepath.Join] *)
  Base : string → string;
  Join : string → string → string;
  (** [ioutil.ReadDir], reduced to the names of the entries *)
  ReadDir : string → error + list string;
  (** [filepath.Match pattern name] (its error is dropped by the caller)
      and [strings.ToLower] *)
  Match : string → string → bool;
  ToLower : string → string
}.

(** [text/template]: [Execute tmpl data] gives the text the template wrote
    to its writer and the error it returned, if any. *)
Record ColumnData : Type := mkColumnData {
  Cells : list string;
  FileName : string;
  RowNum : Z
}.

Class TextTemplate : Type := {
  Template : Type;
  ExecError : Type;
  Execute : Template → ColumnData → string * option ExecError
}.

(** ** The fill-down loops

    The inner loop is the same text in every version of [getRows]. *)
Section FillCells.
Context `{P : Platform}.

(** The body of the inner loop at column [ci] of row [ri]: an empty
    [cell] of a row other than the first takes [rows[ri-1][ci]].
    [row] shares its storage with [rows[ri]], so the assignment updates
    the sheet.  The logging call evaluates [rows[ri-1][ci]] first, the
    assignment evaluates it again. *)
Definition inherit (rows : Sheet) (ri ci : nat) : result error Sheet :=
  cell ← index2 rows ri ci;
  if bool_decide (cell = EmptyString) && bool_decide (ri ≠ 0) then
    inherited ← index2 rows (ri - 1) ci;
    v ← index2 rows (ri - 1) ci;
    Returns (alter (λ row, <[ci := v]> row) ri rows)
  else Returns rows.

(** [for ci, cell := range row] *)
Fixpoint fillCells (ri : nat) (cis : list nat) (rows : Sheet)
  : result error Sheet :=
  match cis with
  | [] => Returns rows
  | ci :: cis' => rows' ← inherit rows ri ci; fillCells ri cis' rows'
  end.
End FillCells.

(** ** The version of [main.go]: [getRows] without a row count *)
Module MainGo.
Section GetRows.
Context `{P : Platform}.

(** [for ri, row := range rows] *)
Fixpoint fillRows (ris : list nat) (rows : Sheet) : result error Sheet :=
  match ris with
  | [] => Returns rows
  | ri :: ris' =>
      row ← index rows ri;
      rows' ← fillCells ri (seq 0 (length row)) rows;
      fillRows ris' rows'
  end.

Definition fillBlanks (rows : Sheet) : result error Sheet :=
  fillRows (seq 0 (length rows)) rows.

Definition getRows (file sheet : string) (start : Z) : result error Sheet :=
  match OpenFile file with
  | inl err => Fails err
  | inr f =>
      let rows := GetRows f sheet in
      rows ← slice_from rows start;
      fillBlanks rows
  end.
End GetRows.
End MainGo.

(** ** The latest version of the program *)
Module Colate.

Section GetRows.
Context `{P : Platform}.

(** [for ri, row := range rows], with the countdown on [count] at the
    end of its body. *)
Fixpoint fillRows (ris : list nat) (count : Z) (rows : Sheet)
  : result error Sheet :=
  match ris with
  | [] => Returns rows
  | ri :: ris' =>
      row ← index rows ri;
      rows' ← fillCells ri (seq 0 (length row)) rows;
      let count' := wrap (count - 1) in
      if bool_decide (count' = 0%Z) then Returns rows'
      else fillRows ris' count' rows'
  end.

(** The loop of [getRows] on the rows left by [rows[start:]]. *)
Definition fillBlanks (count : Z) (rows : Sheet) : result error Sheet :=
  fillRows (seq 0 (length rows)) count rows.

Definition getRows (file sheet : string) (start count : Z)
  : result error Sheet :=
  match OpenFile file with
  | inl err => Fails err
  | inr f =>
      let rows := GetRows f sheet in
      rows ← slice_from rows start;
      fillBlanks count rows
  end.

(** [listFiles]: the entries of [dir] whose lower-cased name matches
    [*.xlsx], joined to [dir], in the order [ReadDir] lists them. *)
Definition listFiles (dir : string) : result error (list string) :=
  match ReadDir dir with
  | inl err => Fails err
  | inr files =>
      Returns
        (foldl (λ ret name,
                  if Match "*.xlsx" (ToLower name)
                  then ret ++ [Join dir name] else ret)
               [] files)
  end.
End GetRows.

Section PrependColumns.
Context `{T : TextTemplate}.

(** A record of the logger at warning level. *)
Inductive LogRecord : Type :=
  | Warnw (msg : string) (err : ExecError) (template : Template)
          (columnData : ColumnData).

(** The body of [for si, source := range sources]: the template writes
    to a fresh buffer [toPut]; an error is logged; [newData[si]] takes
    the content of the buffer in both cases. *)
Definition executeSource (columnData : ColumnData) (si : nat)
    (source : Template) (st : list string * list LogRecord)
  : list string * list LogRecord :=
  let '(newData, log) := st in
  let '(toPut, err) := Execute source columnData in
  let log' :=
    match err with
    | Some e =>
        log ++ [Warnw "error executing column template" e source columnData]
    | None => log
    end in
  (<[si := toPut]> newData, log').

Fixpoint executeSources (columnData : ColumnData) (si : nat)
    (sources : list Template) (st : list string * list LogRecord)
  : list string * list LogRecord :=
  match sources with
  | [] => st
  | source :: sources' =>
      executeSources columnData (S si) sources'
        (executeSource columnData si source st)
  end.

(** The body of [for ri, row := range rows]: [columnData] keeps its
    [FileName], [newData] is [make([]string, len(sources))], and
    [rows[ri]] becomes [append(newData, row...)]. *)
Definition prependRow (sources : list Template) (ri : nat)
    (st : Sheet * ColumnData * list LogRecord)
  : Sheet * ColumnData * list LogRecord :=
  let '(rows, columnData, log) := st in
  match rows !! ri with
  | None => st
  | Some row =>
      let columnData :=
        {| Cells := row; FileName := FileName columnData;
           RowNum := Z.of_nat ri |} in
      let '(newData, log') :=
        executeSources columnData 0 sources
          (replicate (length sources) EmptyString, log) in
      (<[ri := newData ++ row]> rows, columnData, log')
  end.

Definition prependColumns (rows : Sheet) (columnData : ColumnData)
    (sources : list Template) (log : list LogRecord)
  : Sheet * list LogRecord :=
  let '(rows', _, log') :=
    foldl (λ st ri, prependRow sources ri st) (rows, columnData, log)
          (seq 0 (length rows)) in
  (rows', log').
End PrependColumns.

Section Main.
Context `{P : Platform} `{T : TextTemplate}.

(** The flags read in the file loop. *)
Record Flags : Type := mkFlags {
  sheetName : string;
  rowStart : Z;
  rowCount : Z
}.

Variable flags : Flags.
Variable columns : list Template.

(** The body of [for _, file := range files] in [main].  A failing
    [getRows] ends the program ([Fatalw]). *)
Definition processFile (file : string) (st : Sheet * list LogRecord)
  : result error (Sheet * list LogRecord) :=
  let '(data, log) := st in
  let fileBase := Base file in
  thisData ← getRows file (sheetName flags) (rowStart flags) (rowCount flags);
  let columnData :=
    {| Cells := []; FileName := fileBase; RowNum := 0 |} in
  let '(thisData, log') := prependColumns thisData columnData columns log in
  Returns (data ++ thisData, log').

Fixpoint collate (files : list string) (st : Sheet * list LogRecord)
  : result error (Sheet * list LogRecord) :=
  match files with
  | [] => Returns st
  | file :: files' => st' ← processFile file st; collate files' st'
  end.

(** [main] from [listFiles] to the data handed to [createFile]. *)
Definition run (dir : string) : result error (Sheet * list LogRecord) :=
  files ← listFiles dir;
  collate files ([], []).
End Main.

End Colate.

(** ** What the Templater and the file loop compute, row by row *)
Section RowByRow.
Context `{P : Platform} `{T : TextTemplate}.

(** The [ColumnData] a template sees at row [ri] of a file. *)
Definition rowContext (fileName : string) (ri : nat) (row : Row)
  : ColumnData :=
  {| Cells := row; FileName := fileName; RowNum := Z.of_nat ri |}.

(** One value per template, in the order of the templates. *)
Definition columnValues (sources : list Template) (data : ColumnData)
  : list string :=
  (λ source, (Execute source data).1) <$> sources.

(** One warning per template that returned an error. *)
Definition columnWarnings (sources : list Template) (data : ColumnData)
  : list Colate.LogRecord :=
  omap (λ source,
          (λ e, Colate.Warnw "error executing column template" e source data)
            <$> (Execute source data).2)
       sources.

(** The rows one file contributes to the output: what [getRows] and then
    [prependColumns] give for that file. *)
Definition fileRows (flags : Colate.Flags) (columns : list Template)
    (file : string) : result error Sheet :=
  thisData ← Colate.getRows file (Colate.sheetName flags)
               (Colate.rowStart flags) (Colate.rowCount flags);
  Returns
    (Colate.prependColumns thisData
       {| Cells := []; FileName := Base file; RowNum := 0 |} columns []).1.

(** The names [listFiles] keeps. *)
Definition isXlsx (name : string) : bool := Match "*.xlsx" (ToLower name).
End RowByRow.

(** ** Concrete collaborators for the examples *)

(** A fragment of [text/template]: a parsed template is a list of nodes,
    literal text or an action on a field of [ColumnData].  As Go's
    [Execute] does, execution writes the output of each node as it goes
    and stops at the first node that fails; what was written before stays
    in the writer. *)
Module GoTemplate.
Inductive Node : Type :=
  | Text (s : string)
  | Field (name : string)
  | IndexCells (i : nat).

Inductive ExecErr : Type :=
  | CantEvaluateField (name : string)
  | IndexError (i : nat).

Definition showInt (z : Z) : string := NilZero.string_of_int (Z.to_int z).

Definition showCells (cells : list string) : string :=
  String "[" (String.concat " " cells +:+ "]").

Definition evalNode (n : Node) (data : ColumnData) : string + ExecErr :=
  match n with
  | Text s => inl s
  | Field name =>
      if bool_decide (name = "Cells") then inl (showCells (Cells data))
      else if bool_decide (name = "FileName") then inl (FileName data)
      else if bool_decide (name = "RowNum") then inl (showInt (RowNum data))
      else inr (CantEvaluateField name)
  | IndexCells i =>
      match Cells data !! i with
      | Some cell => inl cell
      | None => inr (IndexError i)
      end
  end.

Fixpoint exec (nodes : list Node) (data : ColumnData) (written : string)
  : string * option ExecErr :=
  match nodes with
  | [] => (written, None)
  | n :: nodes' =>
      match evalNode n data with
      | inl s => exec nodes' data (written +:+ s)
      | inr e => (written, Some e)
      end
  end.

#[global] Instance engine : TextTemplate := {|
  Template := list Node;
  ExecError := ExecErr;
  Execute := λ tmpl data, exec tmpl data EmptyString
|}.
End GoTemplate.

(** A directory of workbooks held in memory. *)
Module Disk.
Definition Workbook : Type := list (string * Sheet).

Record Dir : Type := mkDir {
  dirName : string;
  entries : list (string * Workbook)
}.

Fixpoint assoc {A} (key : string) (l : list (string * A)) : option A :=
  match l with
  | [] => None
  | (k, a) :: l' => if bool_decide (k = key) then Some a else assoc key l'
  end.

Definition join (dir name : string) : string := dir +:+ "/" +:+ name.

(** The text after the last separator. *)
Fixpoint baseFrom (acc s : string) : string :=
  match s with
  | EmptyString => acc
  | String c s' =>
      if bool_decide (c = "/"%char) then baseFrom EmptyString s'
      else baseFrom (acc +:+ String c EmptyString) s'
  end.

Definition lowerAscii (c : ascii) : ascii :=
  let n := nat_of_ascii c in
  if (65 <=? n) && (n <=? 90) then ascii_of_nat (n + 32) else c.

Fixpoint toLower (s : string) : string :=
  match s with
  | EmptyString => EmptyString
  | String c s' => String (lowerAscii c) (toLower s')
  end.

Definition hasSuffix (suffix s : string) : bool :=
  let n := String.length s in
  let m := String.length suffix in
  (m <=? n) && bool_decide (substring (n - m) m s = suffix).

(** [filepath.Match] on the one shape of pattern the program uses, a
    star followed by literal text. *)
Definition matchStar (pattern name : string) : bool :=
  match pattern with
  | String "*" suffix => hasSuffix suffix name
  | _ => bool_decide (pattern = name)
  end.

Definition platform (d : Dir) : Platform := {|
  File := Workbook;
  error := string;
  OpenFile := λ file,
    match
      List.find (λ e, bool_decide (join (dirName d) e.1 = file)) (entries d)
    with
    | Some e => inr e.2
    | None => inl "open: no such file"
    end;
  GetRows := λ f sheet, default [] (assoc sheet f);
  Base := baseFrom EmptyString;
  Join := join;
  ReadDir := λ dir,
    if bool_decide (dir = dirName d) then inr (fst <$> entries d)
    else inl "readdir: no such directory";
  Match := matchStar;
  ToLower := toLower
|}.
End Disk.

(** ** Sheets and directories used in the examples *)
Module Examples.
Definition ragged : Sheet := [["a"]; ["b"; EmptyString]].

Definition fiveRows : Sheet :=
  [["a"; "1"]; [EmptyString; "2"]; [EmptyString; "3"]; [EmptyString; "4"];
   [EmptyString; "5"]].

Definition oneFile : Disk.Dir :=
  Disk.mkDir "in" [("f.xlsx", [("Sheet1", fiveRows)])].

Definition twoFiles : Disk.Dir :=
  Disk.mkDir "in"
    [("A.xlsx", [("Sheet1", [["a1"]; ["a2"]])]);
     ("B.xlsx", [("Sheet1", [["b1"]])])].
End Examples.

(** ** Writing the output: [writeData] and [createFile]

    The workbook being written is a value of the [excelize] library, and
    [ToAlphaString] and [strconv.Itoa] are library functions: an interface
    again.  The workbook is threaded through the calls that update it. *)
Class Strconv : Type := {
  Itoa : Z → string
}.

Class Output : Type := {
  Book : Type;
  NewFile : Book;
  NewSheet : Book → string → Book * Z;
  SetActiveSheet : Book → Z → Book;
  SetCellStr : Book → string → string → string → Book;
  ToAlphaString : Z → string
}.

Section WriteData.
Context `{Sc : Strconv} `{O : Output}.

(** The cell name built in the inner loop:
    [ToAlphaString(ci) + strconv.Itoa(startRow+ri+1)]. *)
Definition cellName (startRow : Z) (ri ci : nat) : string :=
  ToAlphaString (Z.of_nat ci)
  +:+ Itoa (wrap (wrap (startRow + Z.of_nat ri) + 1)).

(** [for ci, value := range row], [ci] counting from the column given. *)
Fixpoint writeCells (startRow : Z) (sheet : string) (ri ci : nat) (row : Row)
    (f : Book) : Book :=
  match row with
  | [] => f
  | value :: row' =>
      writeCells startRow sheet ri (S ci) row'
        (SetCellStr f sheet (cellName startRow ri ci) value)
  end.

(** [for ri, row := range data], [ri] counting from the row given. *)
Fixpoint writeRows (startRow : Z) (sheet : string) (ri : nat) (data : Sheet)
    (f : Book) : Book :=
  match data with
  | [] => f
  | row :: data' =>
      writeRows startRow sheet (S ri) data'
        (writeCells startRow sheet ri 0 row f)
  end.

(** [writeData]: the workbook after the writes, and the returned
    [startRow + len(data)]. *)
Definition writeData (f : Book) (startRow : Z) (sheet : string) (data : Sheet)
  : Book * Z :=
  (writeRows startRow sheet 0 data f,
   wrap (startRow + Z.of_nat (length data))).

(** [createFile] of the latest version and of the first program of
    [main.go]. *)
Definition createFile (name : string) (data : Sheet) : Book :=
  let f := NewFile in
  let '(f, sheetIndex) := NewSheet f name in
  let f := SetActiveSheet f sheetIndex in
  (writeData f 0 name data).1.

(** [createFile] of the second program of [main.go], which has the two
    loops in its body and builds the cell name from [ri+1]. *)
Fixpoint createFileCells (name : string) (ri ci : nat) (row : Row) (f : Book)
  : Book :=
  match row with
  | [] => f
  | value :: row' =>
      createFileCells name ri (S ci) row'
        (SetCellStr f name
           (ToAlphaString (Z.of_nat ci) +:+ Itoa (wrap (Z.of_nat ri + 1)))
           value)
  end.

Fixpoint createFileRows (name : string) (ri : nat) (data : Sheet) (f : Book)
  : Book :=
  match data with
  | [] => f
  | row :: data' =>
      createFileRows name (S ri) data' (createFileCells name ri 0 row f)
  end.

Definition createFileInline (name : string) (data : Sheet) : Book :=
  let f := NewFile in
  let '(f, sheetIndex) := NewSheet f name in
  let f := SetActiveSheet f sheetIndex in
  createFileRows name 0 data f.
End WriteData.

(** ** The columns flag: [getColumns]

    [encoding/csv] and the parser of [text/template] are libraries:
    [CsvRead] is the first record of the text, [Parse name text] is
    [template.New(name).Parse(text)]. *)
Class Parsing `{P : Platform} `{T : TextTemplate} : Type := {
  CsvRead : string → error + list string;
  Parse : string → string → error + Template
}.

Section GetColumns.
Context `{Sc : Strconv} `{Pa : Parsing}.

(** [for i := range templates]: [templates[i]] takes the parsed column
    [i]; the first error ends the function.  An entry that has not been
    assigned is [nil], here [None]. *)
Fixpoint parseColumns (columns : list string) (idxs : list nat)
    (templates : list (option Template))
  : result error (list (option Template)) :=
  match idxs with
  | [] => Returns templates
  | i :: idxs' =>
      column ← index columns i;
      match Parse (Itoa (Z.of_nat i)) column with
      | inl err => Fails err
      | inr t => parseColumns columns idxs' (<[i := Some t]> templates)
      end
  end.

Definition getColumns (columnString : string)
  : result error (list (option Template)) :=
  match CsvRead columnString with
  | inl err => Fails err
  | inr columns =>
      let templates := replicate (length columns) None in
      parseColumns columns (seq 0 (length templates)) templates
  end.
End GetColumns.

(** The columns parsed one after the other, [i] being the index of the
    first of them: what the loop of [getColumns] computes. *)
Section ParseEach.
Context `{Sc : Strconv} `{Pa : Parsing}.

Fixpoint parseEach (i : nat) (columns : list string)
  : result error (list Template) :=
  match columns with
  | [] => Returns []
  | column :: columns' =>
      match Parse (Itoa (Z.of_nat i)) column with
      | inl err => Fails err
      | inr t => ts ← parseEach (S i) columns'; Returns (t :: ts)
      end
  end.
End ParseEach.

(** Concrete [strconv], [encoding/csv] and template parser for the
    examples: decimal numbers; a record split at its commas (no quoting),
    the empty text being the end of the input; a template that is plain
    text or one action on a field. *)
Module Flag.
#[global] Instance strconv : Strconv := {| Itoa := GoTemplate.showInt |}.

Fixpoint splitFrom (acc s : string) : list string :=
  match s with
  | EmptyString => [acc]
  | String c s' =>
      if bool_decide (c = ","%char) then acc :: splitFrom EmptyString s'
      else splitFrom (acc +:+ String c EmptyString) s'
  end.

Fixpoint hasBrace (s : string) : bool :=
  match s with
  | EmptyString => false
  | String c s' => bool_decide (c = "{"%char) || hasBrace s'
  end.

Definition parseText (text : string) : string + list GoTemplate.Node :=
  let n := String.length text in
  if String.prefix "{{." text && Disk.hasSuffix "}}" text && (5 <=? n)
  then inr [GoTemplate.Field (substring 3 (n - 5) text)]
  else if hasBrace text then inl "template: unexpected text in action"
  else inr [GoTemplate.Text text].

Definition csvRead (s : string) : string + list string :=
  if bool_decide (s = EmptyString) then inl "EOF"
  else inr (splitFrom EmptyString s).

Definition parsing (d : Disk.Dir)
  : Parsing (P := Disk.platform d) (T := GoTemplate.engine) :=
  @Build_Parsing (Disk.platform d) GoTemplate.engine
    csvRead (λ name text, parseText text).
End Flag.

(** ** [insertColumn] of [main.go] *)

(** The panics of [insertColumn]: those of slicing and indexing, and the
    division by zero of [ri % sourceLen]. *)
Inductive goPanic : Type :=
  | RuntimePanic (p : panic)
  | IntegerDivideByZero.

Inductive outcome (A : Type) : Type :=
  | Value (a : A)
  | Panic (p : goPanic).
Arguments Value {A} a.
Arguments Panic {A} p.

(** The body of the loop on one row: [toPut := source[ri%sourceLen]], then
    [append(row[:position], append([]string{toPut}, row[position:]...)...)].
    [row[:position]] may reach into the capacity of [row], but
    [row[position:]] faults unless [0 <= position <= len(row)], so the
    outcome depends on the length alone.  The inner [append] copies the end
    of the row before the outer one writes. *)
Definition insertOne (position : Z) (source : list string) (ri : nat)
    (row : Row) : outcome Row :=
  let sourceLen := length source in
  if bool_decide (sourceLen = 0) then Panic IntegerDivideByZero
  else
    match source !! (ri mod sourceLen) with
    | None => Panic (RuntimePanic IndexOutOfRange)
    | Some toPut =>
        if bool_decide (0 ≤ position ≤ Z.of_nat (length row))%Z
        then Value (take (Z.to_nat position) row
                    ++ toPut :: drop (Z.to_nat position) row)
        else Panic (RuntimePanic SliceBoundsOutOfRange)
    end.

(** [for ri, row := range rows { ...; rows[ri] = ... }] *)
Fixpoint insertColumnRows (position : Z) (source : list string)
    (ris : list nat) (rows : Sheet) : outcome Sheet :=
  match ris with
  | [] => Value rows
  | ri :: ris' =>
      match rows !! ri with
      | None => Panic (RuntimePanic IndexOutOfRange)
      | Some row =>
          match insertOne position source ri row with
          | Value row' =>
              insertColumnRows position source ris' (<[ri := row']> rows)
          | Panic p => Panic p
          end
      end
  end.

Definition insertColumn (rows : Sheet) (position : Z) (source : list string)
  : outcome Sheet :=
  insertColumnRows position source (seq 0 (length rows)) rows.

(** [insertColumn] by recursion on the rows, [ri] being the index of the
    first of them. *)
Fixpoint insertEach (position : Z) (source : list string) (ri : nat)
    (rows : Sheet) : outcome Sheet :=
  match rows with
  | [] => Value []
  | row :: rows' =>
      match insertOne position source ri row with
      | Value row' =>
          match insertEach position source (S ri) rows' with
          | Value rest => Value (row' :: rest)
          | Panic p => Panic p
          end
      | Panic p => Panic p
      end
  end.

(** ** The file loop of [main.go]

    The loop of [main] in both programs of [main.go]: [getRows], then
    [insertColumn] with the base name of the file at position 0.  A run
    ends with the data, with a fatal error, or with a panic. *)
Inductive ended (E A : Type) : Type :=
  | Done (a : A)
  | Fatal (e : E)
  | Crashed (p : goPanic).
Arguments Done {E A} a.
Arguments Fatal {E A} e.
Arguments Crashed {E A} p.

Section MainGoLoop.
Context `{P : Platform}.
Variable sheetName : string.
Variable rowStart : Z.

Definition mainGoFile (file : string) (data : Sheet) : ended error Sheet :=
  let fileBase := Base file in
  match MainGo.getRows file sheetName rowStart with
  | Fails err => Fatal err
  | Panics p => Crashed (RuntimePanic p)
  | Returns thisData =>
      match insertColumn thisData 0 [fileBase] with
      | Panic p => Crashed p
      | Value thisData => Done (data ++ thisData)
      end
  end.

Fixpoint mainGoLoop (files : list string) (data : Sheet)
  : ended error Sheet :=
  match files with
  | [] => Done data
  | file :: files' =>
      match mainGoFile file data with
      | Done data' => mainGoLoop files' data'
      | Fatal e => Fatal e
      | Crashed p => Crashed p
      end
  end.
End MainGoLoop.

(** How a run of the latest version ends, the log left out. *)
Definition endedOf {E A L} (r : result E (A * L)) : ended E A :=
  match r with
  | Returns st => Done st.1
  | Fails e => Fatal e
  | Panics p => Crashed (RuntimePanic p)
  end.

(** ** How a sheet is read

    [GetRows] of [excelize], in the version with a single result that the
    program calls, allocates every row of a sheet to one width, all cells
    empty, and writes the stored cells over them: a row that stores fewer
    cells than another arrives padded with empty strings.  [asRead w stored]
    is the sheet read from the rows [stored], [w] being the width. *)
Definition padRow (w : nat) (stored : Row) : Row :=
  stored ++ replicate (w - length stored) EmptyString.

Definition asRead (w : nat) (stored : Sheet) : Sheet := padRow w <$> stored.

Definition widest (stored : Sheet) : nat :=
  foldr (λ row w, Nat.max (length row) w) 0 stored.

(** The directory in memory, its sheets read that way. *)
Module Padded.
Definition getRows (f : Disk.Workbook) (sheet : string) : Sheet :=
  let stored := default [] (Disk.assoc sheet f) in
  asRead (widest stored) stored.

Definition platform (d : Disk.Dir) : Platform :=
  @Build_Platform Disk.Workbook string
    (@OpenFile (Disk.platform d)) getRows
    (Disk.baseFrom EmptyString) Disk.join
    (@ReadDir (Disk.platform d)) Disk.matchStar Disk.toLower.
End Padded.

(** ** What one file gives to the output and to the log *)
Section FileOutput.
Context `{P : Platform} `{T : TextTemplate}.

(** The rows of a file after [prependColumns], [rows] being what [getRows]
    returned for it. *)
Definition fileOutput (columns : list Template) (file : string)
    (rows : Sheet) : Sheet :=
  imap (λ ri row, columnValues columns (rowContext (Base file) ri row) ++ row)
       rows.

(** The warnings logged for it. *)
Definition fileWarnings (columns : list Template) (file : string)
    (rows : Sheet) : list Colate.LogRecord :=
  mjoin (imap (λ ri row,
                 columnWarnings columns (rowContext (Base file) ri row))
              rows).
End FileOutput.

(** Stored sheets and directories of the examples below. *)
Module Stored.
Definition missingCell : Sheet :=
  [["x"; "y"]; ["a"]; ["b"; EmptyString]].

Definition oneFile : Disk.Dir :=
  Disk.mkDir "in" [("f.xlsx", [("Sheet1", missingCell)])].

Definition narrowFirst : Disk.Dir :=
  Disk.mkDir "in"
    [("A.xlsx", [("Sheet1", [["a1"]; ["a2"]])]);
     ("B.xlsx", [("Sheet1", [["b1"; "b2"]])])].
End Stored.

(** * Proofs *)

(** ** Go's [int] *)
Lemma wrap_sub (a b : Z) : wrap (wrap a - b) = wrap (a - b).
Proof.
  unfold wrap. f_equal.
  replace ((a + 2 ^ 63) mod 2 ^ 64 - 2 ^ 63 - b + 2 ^ 63)%Z
    with ((a + 2 ^ 63) mod 2 ^ 64 - b)%Z by lia.
  rewrite Zminus_mod_idemp_l. f_equal. lia.
Qed.

Lemma wrap_is_int (z : Z) : is_int z → wrap z = z.
Proof.
  unfold is_int, int_min, int_max, wrap. intros Hz.
  rewrite Z.mod_small; lia.
Qed.

Lemma wrap_zero (z : Z) :
  (- 2 ^ 64 < z < 2 ^ 64)%Z → wrap z = 0%Z → z = 0%Z.
Proof.
  unfold wrap. intros Hz Hw.
  assert (Hmod : ((z + 2 ^ 63) mod 2 ^ 64 = 2 ^ 63)%Z) by lia.
  destruct (Z_lt_le_dec z (- 2 ^ 63)) as [Hlt|Hge].
  - replace (z + 2 ^ 63)%Z with ((z + 2 ^ 63 + 2 ^ 64) + (-1) * 2 ^ 64)%Z
      in Hmod by lia.
    rewrite Z_mod_plus_full, Z.mod_small in Hmod; lia.
  - destruct (Z_lt_le_dec z (2 ^ 63)) as [Hlt|Hge'].
    + rewrite Z.mod_small in Hmod; lia.
    + replace (z + 2 ^ 63)%Z with ((z + 2 ^ 63 - 2 ^ 64) + 1 * 2 ^ 64)%Z
        in Hmod by lia.
      rewrite Z_mod_plus_full, Z.mod_small in Hmod; lia.
Qed.

(** ** The index loops compute the recursive fill-down *)
Section Refinement.
Context `{P : Platform}.

Lemma index_middle {A} (l1 l2 : list A) (x : A) :
  index (E := error) (l1 ++ x :: l2) (length l1) = Returns x.
Proof. unfold index. by rewrite list_lookup_middle. Qed.

Lemma insert_middle {A} (l1 l2 : list A) (x y : A) :
  <[length l1 := y]> (l1 ++ x :: l2) = l1 ++ y :: l2.
Proof. induction l1 as [|z l1 IH]; simpl; [done|]. by f_equal. Qed.

Lemma head_drop_lookup {A} (l : list A) (n : nat) :
  head (drop n l) = l !! n.
Proof. rewrite head_lookup, lookup_drop. f_equal. lia. Qed.

Lemma tail_drop {A} (l : list A) (n : nat) :
  tail (drop n l) = drop (S n) l.
Proof.
  revert l. induction n as [|n IH]; intros [|x l]; simpl; done.
Qed.

(** The first row: no cell is touched. *)
Lemma fillCells_first (rrest rdone : Row) (rest : Sheet) :
  fillCells 0 (seq (length rdone) (length rrest)) ((rdone ++ rrest) :: rest)
  = Returns ((rdone ++ rrest) :: rest).
Proof.
  revert rdone. induction rrest as [|cell rrest IH]; intros rdone; [done|].
  simpl. unfold inherit, index2. simpl.
  rewrite index_middle. simpl.
  rewrite andb_false_r. simpl.
  specialize (IH (rdone ++ [cell])).
  rewrite length_app, <- app_assoc in IH. simpl in IH.
  by rewrite Nat.add_1_r in IH.
Qed.

Lemma index_row (top : Sheet) (prev row : Row) (rest : Sheet) :
  index (E := error) (top ++ prev :: row :: rest) (S (length top))
  = Returns row.
Proof.
  replace (top ++ prev :: row :: rest) with ((top ++ [prev]) ++ row :: rest)
    by by rewrite <- app_assoc.
  replace (S (length top)) with (length (top ++ [prev]))
    by (rewrite length_app; simpl; lia).
  apply index_middle.
Qed.

Lemma alter_row (top : Sheet) (prev row : Row) (rest : Sheet) f :
  alter f (S (length top)) (top ++ prev :: row :: rest)
  = top ++ prev :: f row :: rest.
Proof.
  induction top as [|d top IH]; simpl; [done|].
  f_equal. apply IH.
Qed.

(** A later row: every cell goes through [inheritCell] with the cell
    above it in [prev]. *)
Lemma fillCells_inheritRow (rrest rdone : Row) (top : Sheet) (prev : Row)
    (rest : Sheet) :
  fillCells (S (length top)) (seq (length rdone) (length rrest))
    (top ++ prev :: (rdone ++ rrest) :: rest)
  = r ← inheritRow (drop (length rdone) prev) rrest;
    Returns (top ++ prev :: (rdone ++ r) :: rest).
Proof.
  revert rdone. induction rrest as [|cell rrest IH]; intros rdone.
  { simpl. by rewrite !app_nil_r. }
  assert (Hnext : ∀ c : string,
    fillCells (S (length top)) (seq (S (length rdone)) (length rrest))
      (top ++ prev :: (rdone ++ c :: rrest) :: rest)
    = r ← inheritRow (tail (drop (length rdone) prev)) rrest;
      Returns (top ++ prev :: (rdone ++ c :: r) :: rest)).
  { intros c. specialize (IH (rdone ++ [c])).
    rewrite length_app, <- app_assoc in IH. simpl in IH.
    rewrite Nat.add_1_r in IH. rewrite IH, tail_drop.
    destruct (inheritRow _ rrest); simpl; try done.
    by rewrite <- app_assoc. }
  simpl. unfold inherit at 1, index2.
  rewrite index_row. simpl. rewrite index_middle. simpl.
  rewrite Nat.sub_0_r, head_drop_lookup.
  unfold inheritCell. case_bool_decide as Hcell.
  - subst cell. simpl. rewrite index_middle. simpl.
    unfold index. case_match; simpl; [|done].
    rewrite alter_row. cbv beta. rewrite insert_middle.
    rewrite Hnext. by destruct (inheritRow _ rrest).
  - simpl. rewrite Hnext. by destruct (inheritRow _ rrest).
Qed.

Lemma fillRows_inheritRows (rest top : Sheet) (prev : Row) (count : Z) :
  Colate.fillRows (seq (S (length top)) (length rest)) count
    (top ++ prev :: rest)
  = r ← inheritRows count prev rest; Returns (top ++ prev :: r).
Proof.
  revert top prev count.
  induction rest as [|row rest IH]; intros top prev count; [done|].
  simpl. rewrite index_row. simpl.
  pose proof (fillCells_inheritRow row [] top prev rest) as Hrow.
  simpl in Hrow. rewrite Hrow. clear Hrow. rewrite drop_0.
  destruct (inheritRow prev row) as [row'| |]; simpl; try done.
  case_bool_decide; [done|].
  specialize (IH (top ++ [prev]) row' (wrap (count - 1))).
  rewrite length_app, <- app_assoc in IH. simpl in IH.
  rewrite Nat.add_1_r in IH. rewrite IH.
  destruct (inheritRows _ row' rest); simpl; try done.
  by rewrite <- app_assoc.
Qed.

(** The loop of [getRows] is the recursive fill-down, faults included. *)
Lemma fillBlanks_fillDownCount (count : Z) (rows : Sheet) :
  Colate.fillBlanks count rows = fillDownCount count rows.
Proof.
  destruct rows as [|first rest]; [done|].
  unfold Colate.fillBlanks, fillDownCount. simpl.
  pose proof (fillCells_first first [] rest) as Hfirst.
  simpl in Hfirst. rewrite Hfirst. simpl.
  case_bool_decide; [done|].
  apply (fillRows_inheritRows rest [] first).
Qed.

Lemma MainGo_fillRows_inheritAll (rest top : Sheet) (prev : Row) :
  MainGo.fillRows (seq (S (length top)) (length rest)) (top ++ prev :: rest)
  = r ← inheritAll prev rest; Returns (top ++ prev :: r).
Proof.
  revert top prev.
  induction rest as [|row rest IH]; intros top prev; [done|].
  simpl. rewrite index_row. simpl.
  pose proof (fillCells_inheritRow row [] top prev rest) as Hrow.
  simpl in Hrow. rewrite Hrow. clear Hrow. rewrite drop_0.
  destruct (inheritRow prev row) as [row'| |]; simpl; try done.
  specialize (IH (top ++ [prev]) row').
  rewrite length_app, <- app_assoc in IH. simpl in IH.
  rewrite Nat.add_1_r in IH. rewrite IH.
  destruct (inheritAll row' rest); simpl; try done.
  by rewrite <- app_assoc.
Qed.

(** The loop of [getRows] in [main.go] is the fill-down without a
    countdown. *)
Lemma MainGo_fillBlanks_fillDownAll (rows : Sheet) :
  MainGo.fillBlanks rows = fillDownAll rows.
Proof.
  destruct rows as [|first rest]; [done|].
  unfold MainGo.fillBlanks, fillDownAll. simpl.
  pose proof (fillCells_first first [] rest) as Hfirst.
  simpl in Hfirst. rewrite Hfirst. simpl.
  apply (MainGo_fillRows_inheritAll rest [] first).
Qed.
End Refinement.

(** ** The recursive fill-down and the specification's Normalizer *)
Section FillDownFacts.
Context {E : Type}.

Lemma fillRowSpec_cons (prev : Row) (cell : string) (row : Row) :
  fillRowSpec prev (cell :: row)
  = (if bool_decide (cell = EmptyString)
     then default EmptyString (head prev) else cell)
    :: fillRowSpec (tail prev) row.
Proof.
  unfold fillRowSpec. rewrite imap_cons. f_equal.
  - unfold fillCellSpec. by rewrite head_lookup.
  - apply imap_ext. intros i c _. unfold fillCellSpec. simpl.
    by rewrite lookup_tail.
Qed.

Lemma length_fillRowSpec (prev row : Row) :
  length (fillRowSpec prev row) = length row.
Proof. apply length_imap. Qed.

(** [fillDownSpec] cell by cell: the first row is the input's, and a cell
    of a later row is the input's cell, or the cell above it in the filled
    row before when the input's cell is empty. *)
Lemma fillDownSpec_first (rows : Sheet) : head (fillDownSpec rows) = head rows.
Proof. by destruct rows. Qed.

Lemma fillRowSpec_lookup (prev row : Row) (j : nat) (cell : string) :
  row !! j = Some cell →
  fillRowSpec prev row !! j
  = Some (if bool_decide (cell = EmptyString)
          then default EmptyString (prev !! j) else cell).
Proof.
  intros Hcell. unfold fillRowSpec. by rewrite list_lookup_imap, Hcell.
Qed.

Lemma fillDownSpec_next (rows : Sheet) (i : nat) (above row : Row) :
  fillDownSpec rows !! i = Some above → rows !! S i = Some row →
  fillDownSpec rows !! S i = Some (fillRowSpec above row).
Proof.
  destruct rows as [|first rest]; [done|]. simpl.
  revert first rest. induction i as [|i IH]; intros prev rest Habove Hrow.
  - destruct rest as [|r rest]; by simplify_eq/=.
  - destruct rest as [|r rest]; simplify_eq/=. by apply IH.
Qed.

Lemma inheritRow_covers (row prev : Row) :
  covers prev row = true →
  inheritRow (E := E) prev row = Returns (fillRowSpec prev row).
Proof.
  revert prev. induction row as [|cell row IH]; intros prev Hc; [done|].
  rewrite fillRowSpec_cons. simpl in *.
  apply andb_true_iff in Hc as [Hcell Hrow].
  rewrite (IH _ Hrow). unfold inheritCell.
  case_bool_decide; simpl; [|done].
  simpl in Hcell. apply bool_decide_eq_true in Hcell as [v Hv].
  by rewrite Hv.
Qed.

Lemma inheritRow_not_covers (row prev : Row) :
  covers prev row = false →
  inheritRow (E := E) prev row = Panics IndexOutOfRange.
Proof.
  revert prev. induction row as [|cell row IH]; intros prev Hc; [done|].
  simpl in *. apply andb_false_iff in Hc as [Hcell|Hrow].
  - unfold inheritCell. apply orb_false_iff in Hcell as [Hempty Habove].
    apply negb_false_iff in Hempty. rewrite Hempty.
    apply bool_decide_eq_false in Habove.
    destruct (head prev) as [v|]; [|done]. by destruct Habove.
  - rewrite (IH _ Hrow). unfold inheritCell.
    by case_bool_decide; [destruct (head prev)|].
Qed.

Lemma covers_length (row p1 p2 : Row) :
  length p1 = length p2 → covers p1 row = covers p2 row.
Proof.
  revert p1 p2. induction row as [|cell row IH]; intros p1 p2 Hlen; [done|].
  simpl. rewrite (IH (tail p1) (tail p2)).
  - by destruct p1, p2.
  - destruct p1, p2; simpl in *; congruence.
Qed.

(** An empty cell under a missing column is what [covers] rules out. *)
Lemma covers_missing (row prev : Row) (ci : nat) :
  row !! ci = Some EmptyString → prev !! ci = None → covers prev row = false.
Proof.
  revert prev ci. induction row as [|cell row IH]; intros prev ci Hcell Hprev.
  { done. }
  simpl. destruct ci as [|ci]; simpl in *.
  - simplify_eq. by rewrite head_lookup, Hprev.
  - rewrite (IH (tail prev) ci); [apply andb_false_r|done|].
    by rewrite lookup_tail.
Qed.

Lemma coversAll_missing (rows : Sheet) (first prev row : Row) (i : nat) :
  (first :: rows) !! i = Some prev → rows !! i = Some row →
  covers prev row = false → coversAll first rows = false.
Proof.
  revert first rows. induction i as [|i IH]; intros first rows Hprev Hrow Hc.
  - destruct rows as [|r rows]; simplify_eq/=. by rewrite Hc.
  - destruct rows as [|r rows]; simplify_eq/=.
    rewrite (IH r rows); [apply andb_false_r|done..].
Qed.

Lemma lookupsInRange_missing (rows : Sheet) (prev row : Row) (i ci : nat) :
  rows !! i = Some prev → rows !! S i = Some row →
  row !! ci = Some EmptyString → prev !! ci = None →
  lookupsInRange rows = false.
Proof.
  intros Hprev Hrow Hcell Habove. destruct rows as [|first rest]; [done|].
  simpl. eapply (coversAll_missing rest first prev row i); [done..|].
  by eapply covers_missing.
Qed.

Lemma inheritAll_coversAll (rows : Sheet) (prev : Row) :
  coversAll prev rows = true →
  inheritAll (E := E) prev rows = Returns (fillAfterSpec prev rows).
Proof.
  revert prev. induction rows as [|row rows IH]; intros prev Hc; [done|].
  simpl in *. apply andb_true_iff in Hc as [Hrow Hrows].
  rewrite (inheritRow_covers _ _ Hrow). simpl.
  rewrite IH; [done|].
  destruct rows as [|next rows]; [done|]. simpl in *.
  by rewrite (covers_length next _ row) by apply length_fillRowSpec.
Qed.

Lemma inheritAll_not_coversAll (rows : Sheet) (prev : Row) :
  coversAll prev rows = false →
  inheritAll (E := E) prev rows = Panics IndexOutOfRange.
Proof.
  revert prev. induction rows as [|row rows IH]; intros prev Hc; [done|].
  simpl in *. apply andb_false_iff in Hc as [Hrow|Hrows].
  - by rewrite (inheritRow_not_covers _ _ Hrow).
  - destruct (covers prev row) eqn:Hrow.
    + rewrite (inheritRow_covers _ _ Hrow). simpl.
      rewrite IH; [done|].
      destruct rows as [|next rows]; [done|]. simpl in *.
      by rewrite (covers_length next _ row) by apply length_fillRowSpec.
    + by rewrite (inheritRow_not_covers _ _ Hrow).
Qed.

Lemma fillDownAll_in_range (rows : Sheet) :
  lookupsInRange rows = true →
  fillDownAll (E := E) rows = Returns (fillDownSpec rows).
Proof.
  destruct rows as [|first rest]; [done|]. simpl. intros Hc.
  by rewrite (inheritAll_coversAll _ _ Hc).
Qed.

Lemma fillDownAll_out_of_range (rows : Sheet) :
  lookupsInRange rows = false →
  fillDownAll (E := E) rows = Panics IndexOutOfRange.
Proof.
  destruct rows as [|first rest]; [done|]. simpl. intros Hc.
  by rewrite (inheritAll_not_coversAll _ _ Hc).
Qed.

(** *** The countdown *)

Lemma inheritRows_unlimited (rows : Sheet) (prev : Row) (count : Z) :
  (∀ j : Z, (1 ≤ j ≤ Z.of_nat (length rows))%Z → wrap (count - j) ≠ 0%Z) →
  inheritRows (E := E) count prev rows = inheritAll prev rows.
Proof.
  revert prev count.
  induction rows as [|row rows IH]; intros prev count Hcount; [done|].
  simpl. destruct (inheritRow prev row) as [row'| |]; simpl; try done.
  rewrite bool_decide_false by (apply Hcount; simpl; lia).
  rewrite IH; [done|].
  intros j Hj. rewrite wrap_sub.
  replace (count - 1 - j)%Z with (count - (j + 1))%Z by lia.
  apply Hcount. simpl. lia.
Qed.

Lemma inheritRows_limited (rows : Sheet) (prev : Row) (count : Z) :
  (1 ≤ count ≤ int_max)%Z →
  inheritRows (E := E) count prev rows
  = r ← inheritAll prev (take (Z.to_nat count) rows);
    Returns (r ++ drop (Z.to_nat count) rows).
Proof.
  revert prev count.
  induction rows as [|row rows IH]; intros prev count Hcount.
  { by rewrite take_nil, drop_nil. }
  replace (Z.to_nat count) with (S (Z.to_nat (count - 1))) by lia.
  simpl. destruct (inheritRow prev row) as [row'| |]; simpl; try done.
  rewrite wrap_is_int by (unfold is_int, int_min, int_max in *; lia).
  case_bool_decide as Hone.
  - by replace (count - 1)%Z with 0%Z by lia.
  - rewrite IH by lia.
    by destruct (inheritAll row' (take _ rows)).
Qed.

(** Without a limit ([count <= 0]) the countdown never reaches zero on a
    sheet that a Go slice can hold. *)
Lemma fillDownCount_unlimited (count : Z) (rows : Sheet) :
  (int_min ≤ count ≤ 0)%Z → (Z.of_nat (length rows) ≤ int_max)%Z →
  fillDownCount (E := E) count rows = fillDownAll rows.
Proof.
  intros Hcount Hlen. destruct rows as [|first rest]; [done|].
  assert (Hne : ∀ j : Z,
    (1 ≤ j ≤ Z.of_nat (length (first :: rest)))%Z → wrap (count - j) ≠ 0%Z).
  { intros j Hj Hw. apply wrap_zero in Hw; unfold int_min, int_max in *; lia. }
  simpl. rewrite bool_decide_false by (apply Hne; simpl; lia).
  rewrite inheritRows_unlimited; [done|].
  intros j Hj. rewrite wrap_sub.
  replace (count - 1 - j)%Z with (count - (j + 1))%Z by lia.
  apply Hne. simpl in *. lia.
Qed.

(** With a limit, the fill-down runs on the first [count] rows and the
    other rows are returned as they were read. *)
Lemma fillDownCount_limited (count : Z) (rows : Sheet) :
  (1 ≤ count ≤ int_max)%Z →
  fillDownCount (E := E) count rows
  = r ← fillDownAll (take (Z.to_nat count) rows);
    Returns (r ++ drop (Z.to_nat count) rows).
Proof.
  intros Hcount. destruct rows as [|first rest].
  { by rewrite take_nil, drop_nil. }
  replace (Z.to_nat count) with (S (Z.to_nat (count - 1))) by lia.
  simpl. rewrite wrap_is_int by (unfold is_int, int_min, int_max in *; lia).
  case_bool_decide as Hone.
  - by replace (count - 1)%Z with 0%Z by lia.
  - rewrite inheritRows_limited by lia.
    by destruct (inheritAll first (take _ rest)).
Qed.

(** *** What the fill-down leaves alone *)

Lemma inheritRow_kept (row prev r : Row) :
  inheritRow (E := E) prev row = Returns r → Forall2 kept row r.
Proof.
  revert prev r. induction row as [|cell row IH]; intros prev r Hr.
  { simpl in Hr. injection Hr as <-. constructor. }
  simpl in Hr. unfold inheritCell in Hr.
  destruct (inheritRow (tail prev) row) as [r'| |] eqn:Hr';
    repeat (case_bool_decide || case_match); simplify_eq/=;
    (constructor; [unfold kept; auto | by eapply IH]).
Qed.

Lemma inheritRows_kept (rows : Sheet) (count : Z) (prev : Row) (r : Sheet) :
  inheritRows (E := E) count prev rows = Returns r →
  Forall2 (Forall2 kept) rows r.
Proof.
  revert count prev r.
  induction rows as [|row rows IH]; intros count prev r Hr.
  { simpl in Hr. injection Hr as <-. constructor. }
  simpl in Hr.
  destruct (inheritRow prev row) as [row'| |] eqn:Hrow; simplify_eq/=.
  apply inheritRow_kept in Hrow.
  case_bool_decide; simplify_eq/=.
  - constructor; [done|]. apply Forall2_same_length_lookup_2; [done|].
    intros i x y Hx Hy. simplify_eq.
    apply Forall2_same_length_lookup_2; [done|].
    intros j c c' Hc Hc'. simplify_eq. by left.
  - destruct (inheritRows _ row' rows) as [rest| |] eqn:Hrest; simplify_eq/=.
    constructor; [done|]. by eapply IH.
Qed.

Lemma Forall2_kept_refl (rows : Sheet) : Forall2 (Forall2 kept) rows rows.
Proof.
  apply Forall2_same_length_lookup_2; [done|].
  intros i x y Hx Hy. simplify_eq.
  apply Forall2_same_length_lookup_2; [done|].
  intros j c c' Hc Hc'. simplify_eq. by left.
Qed.

Lemma fillDownCount_kept (count : Z) (rows r : Sheet) :
  fillDownCount (E := E) count rows = Returns r →
  Forall2 (Forall2 kept) rows r ∧ head r = head rows.
Proof.
  destruct rows as [|first rest]; simpl; intros Hr.
  { injection Hr as <-. split; [constructor|done]. }
  case_bool_decide; simplify_eq/=.
  - split; [apply Forall2_kept_refl|done].
  - destruct (inheritRows _ first rest) as [rest'| |] eqn:Hrest;
      simplify_eq/=.
    split; [|done]. constructor.
    + apply Forall2_same_length_lookup_2; [done|].
      intros j c c' Hc Hc'. simplify_eq. by left.
    + by eapply inheritRows_kept.
Qed.

(** *** Sheets without empty cells *)

Lemma inheritRow_noEmptyCell (row prev : Row) :
  noEmptyCell row → inheritRow (E := E) prev row = Returns row.
Proof.
  revert prev. induction row as [|cell row IH]; intros prev Hrow; [done|].
  apply Forall_cons in Hrow as [Hcell Hrow].
  simpl. unfold inheritCell. rewrite bool_decide_false by done.
  simpl. by rewrite IH.
Qed.

Lemma inheritRows_noEmptyCell (rows : Sheet) (count : Z) (prev : Row) :
  Forall noEmptyCell rows →
  inheritRows (E := E) count prev rows = Returns rows.
Proof.
  revert count prev.
  induction rows as [|row rows IH]; intros count prev Hrows; [done|].
  apply Forall_cons in Hrows as [Hrow Hrows].
  simpl. rewrite inheritRow_noEmptyCell by done. simpl.
  case_bool_decide; [done|]. by rewrite IH.
Qed.

Lemma fillDownAll_noEmptyCell (rows : Sheet) :
  Forall noEmptyCell rows → fillDownAll (E := E) rows = Returns rows.
Proof.
  destruct rows as [|first rest]; [done|]. intros Hrows.
  apply Forall_cons in Hrows as [_ Hrest]. simpl.
  assert (Hall : ∀ prev, inheritAll (E := E) prev rest = Returns rest).
  { induction rest as [|row rest IH]; intros prev; [done|].
    apply Forall_cons in Hrest as [Hrow Hrest].
    simpl. rewrite inheritRow_noEmptyCell by done. simpl.
    by rewrite IH. }
  by rewrite Hall.
Qed.

Lemma fillDownCount_noEmptyCell (count : Z) (rows : Sheet) :
  Forall noEmptyCell rows → fillDownCount (E := E) count rows = Returns rows.
Proof.
  destruct rows as [|first rest]; [done|]. intros Hrows.
  apply Forall_cons in Hrows as [_ Hrest].
  simpl. case_bool_decide; [done|].
  by rewrite inheritRows_noEmptyCell.
Qed.
End FillDownFacts.

(** ** The Templater *)
Section TemplaterFacts.
Context `{T : TextTemplate}.

Lemma executeSources_values (data : ColumnData) (sources : list Template)
    (pre post : list string) (log : list Colate.LogRecord) :
  length post = length sources →
  Colate.executeSources data (length pre) sources (pre ++ post, log)
  = (pre ++ columnValues sources data, log ++ columnWarnings sources data).
Proof.
  revert pre post log.
  induction sources as [|source sources IH]; intros pre post log Hlen.
  { destruct post; [|done]. simpl. by rewrite !app_nil_r. }
  destruct post as [|x post]; [done|]. injection Hlen as Hlen.
  simpl. unfold Colate.executeSource.
  destruct (Execute source data) as [toPut err] eqn:Hexec. simpl.
  rewrite insert_middle.
  specialize (IH (pre ++ [toPut]) post).
  rewrite length_app, <- app_assoc in IH. simpl in IH.
  rewrite Nat.add_1_r in IH. rewrite IH by done.
  rewrite <- !app_assoc. simpl. f_equal.
  destruct err as [e|]; simpl; [by rewrite <- app_assoc|done].
Qed.

Lemma prependRows_rows (fileName : string) (sources : list Template)
    (rest top : Sheet) (columnData : ColumnData)
    (log : list Colate.LogRecord) :
  FileName columnData = fileName →
  let st := foldl (λ st ri, Colate.prependRow sources ri st)
              (top ++ rest, columnData, log)
              (seq (length top) (length rest)) in
  st.1.1
  = top ++ imap (λ i row,
                   columnValues sources
                     (rowContext fileName (length top + i) row) ++ row)
                rest
  ∧ st.2
    = log ++ mjoin (imap (λ i row,
                            columnWarnings sources
                              (rowContext fileName (length top + i) row))
                         rest).
Proof.
  revert top columnData log.
  induction rest as [|row rest IH]; intros top columnData log Hname.
  { simpl. by rewrite !app_nil_r. }
  simpl. rewrite list_lookup_middle by done.
  pose proof (executeSources_values
    {| Cells := row; FileName := FileName columnData;
       RowNum := Z.of_nat (length top) |}
    sources [] (replicate (length sources) EmptyString) log) as Hexec.
  simpl in Hexec. rewrite Hexec by apply length_replicate. clear Hexec.
  rewrite insert_middle.
  match goal with
  | |- context [foldl _ (top ++ ?new :: rest, ?cd, ?log') _] =>
      specialize (IH (top ++ [new]) cd log')
  end.
  rewrite length_app, <- app_assoc in IH. simpl in IH.
  rewrite Nat.add_1_r in IH. destruct (IH Hname) as [Hrows Hlog].
  rewrite Hrows, Hlog, Hname. unfold rowContext.
  rewrite Nat.add_0_r, <- !app_assoc. simpl.
  split.
  - do 2 f_equal. apply imap_ext. intros i x _. simpl.
    by rewrite Nat.add_succ_r.
  - do 3 f_equal. apply imap_ext. intros i x _. simpl.
    by rewrite Nat.add_succ_r.
Qed.

(** [prependColumns] row by row. *)
Lemma prependColumns_rowByRow (rows : Sheet) (columnData : ColumnData)
    (sources : list Template) (log : list Colate.LogRecord) :
  Colate.prependColumns rows columnData sources log
  = (imap (λ ri row,
             columnValues sources
               (rowContext (FileName columnData) ri row) ++ row)
          rows,
     log ++ mjoin (imap (λ ri row,
                           columnWarnings sources
                             (rowContext (FileName columnData) ri row))
                        rows)).
Proof.
  unfold Colate.prependColumns.
  pose proof (prependRows_rows (FileName columnData) sources rows []
                columnData log eq_refl) as [Hrows Hlog].
  simpl in Hrows, Hlog.
  destruct (foldl _ _ _) as [[rows' cd'] log']. simpl in *.
  by rewrite Hrows, Hlog.
Qed.
End TemplaterFacts.

(** ** [listFiles] and the file loop *)
Section MainFacts.
Context `{P : Platform} `{T : TextTemplate}.
Variable flags : Colate.Flags.
Variable columns : list Template.

Lemma listFiles_fold (dir : string) (names ret : list string) :
  foldl (λ ret name,
           if Match "*.xlsx" (ToLower name)
           then ret ++ [Join dir name] else ret)
        ret names
  = ret ++ (Join dir <$> List.filter isXlsx names).
Proof.
  revert ret. induction names as [|name names IH]; intros ret.
  { simpl. by rewrite app_nil_r. }
  simpl. rewrite IH. unfold isXlsx.
  destruct (Match "*.xlsx" (ToLower name)); [|done].
  by rewrite <- app_assoc.
Qed.

(** [listFiles] keeps the matching names in the order of the listing. *)
Lemma listFiles_filter (dir : string) (names : list string) :
  ReadDir dir = inr names →
  Colate.listFiles dir = Returns (Join dir <$> List.filter isXlsx names).
Proof.
  intros Hdir. unfold Colate.listFiles. rewrite Hdir.
  by rewrite listFiles_fold.
Qed.

Lemma processFile_fileRows (file : string) (data rowsF : Sheet)
    (log : list Colate.LogRecord) :
  fileRows flags columns file = Returns rowsF →
  ∃ log', Colate.processFile flags columns file (data, log)
          = Returns (data ++ rowsF, log').
Proof.
  unfold fileRows, Colate.processFile. intros Hrows.
  destruct (Colate.getRows _ _ _ _) as [thisData| |]; simplify_eq/=.
  rewrite !prependColumns_rowByRow. simpl. eauto.
Qed.

Lemma collate_cons (file : string) (files : list string)
    (st : Sheet * list Colate.LogRecord) :
  Colate.collate flags columns (file :: files) st
  = st' ← Colate.processFile flags columns file st;
    Colate.collate flags columns files st'.
Proof. done. Qed.

Lemma collate_concat (files : list string) (perFile : list Sheet)
    (data : Sheet) (log : list Colate.LogRecord) :
  Forall2 (λ file rowsF, fileRows flags columns file = Returns rowsF)
          files perFile →
  ∃ log', Colate.collate flags columns files (data, log)
          = Returns (data ++ concat perFile, log').
Proof.
  intros Hfiles. revert data log.
  induction Hfiles as [|file rowsF files perFile Hfile _ IH]; intros data log.
  { simpl. rewrite app_nil_r. eauto. }
  rewrite collate_cons.
  destruct (processFile_fileRows file data rowsF log Hfile) as [log1 ->].
  simpl. destruct (IH (data ++ rowsF) log1) as [log' ->].
  rewrite <- app_assoc. eauto.
Qed.

(** A file that cannot be read ends the run: no output is produced. *)
Lemma collate_fails (files1 files2 : list string) (file : string)
    (perFile : list Sheet) (e : error) (st : Sheet * list Colate.LogRecord) :
  Forall2 (λ file rowsF, fileRows flags columns file = Returns rowsF)
          files1 perFile →
  fileRows flags columns file = Fails e →
  Colate.collate flags columns (files1 ++ file :: files2) st = Fails e.
Proof.
  intros Hfiles Hfile. revert st.
  induction Hfiles as [|f rowsF files perFile Hf _ IH]; intros [data log].
  - simpl. unfold fileRows in Hfile.
    destruct (Colate.getRows _ _ _ _); by simplify_eq/=.
  - rewrite <- app_comm_cons, collate_cons.
    destruct (processFile_fileRows f data rowsF log Hf) as [log1 ->].
    apply IH.
Qed.
End MainFacts.

(** ** [getRows] around its loop *)
Section GetRowsFacts.
Context `{P : Platform}.

Lemma Forall2_kept_length (rows r : Sheet) :
  Forall2 (Forall2 kept) rows r →
  length r = length rows
  ∧ ∀ i row row', rows !! i = Some row → r !! i = Some row' →
      length row' = length row
      ∧ ∀ j cell cell', row !! j = Some cell → row' !! j = Some cell' →
          cell' = cell ∨ cell = EmptyString.
Proof.
  intros Hk. split; [symmetry; by eapply Forall2_length|].
  intros i row row' Hrow Hrow'.
  pose proof (Forall2_lookup_lr _ _ _ _ _ _ Hk Hrow Hrow') as Hcells.
  split; [symmetry; by eapply Forall2_length|].
  intros j cell cell' Hcell Hcell'.
  apply (Forall2_lookup_lr _ _ _ _ _ _ Hcells Hcell Hcell').
Qed.

Lemma fillDownAll_kept (rows r : Sheet) :
  fillDownAll (E := error) rows = Returns r →
  Forall2 (Forall2 kept) rows r ∧ head r = head rows.
Proof.
  destruct rows as [|first rest]; simpl; intros Hr.
  { injection Hr as <-. split; [constructor|done]. }
  destruct (inheritAll first rest) as [rest'| |] eqn:Hrest; simplify_eq/=.
  split; [|done]. constructor.
  - apply Forall2_same_length_lookup_2; [done|].
    intros j c c' Hc Hc'. simplify_eq. by left.
  - revert first rest' Hrest.
    induction rest as [|row rest IH]; intros prev rest' Hrest.
    { simpl in Hrest. injection Hrest as <-. constructor. }
    simpl in Hrest.
    destruct (inheritRow prev row) as [row'| |] eqn:Hrow; simplify_eq/=.
    destruct (inheritAll row' rest) as [rest''| |] eqn:Hrest';
      simplify_eq/=.
    constructor; [by eapply inheritRow_kept | by eapply IH].
Qed.

(** Whatever the count, [getRows] returns as many rows as [rows[start:]]
    has. *)
Lemma getRows_length (file sheet : string) (start count : Z) (r : Sheet) :
  Colate.getRows file sheet start count = Returns r →
  ∃ f, OpenFile file = inr f
       ∧ (0 ≤ start ≤ Z.of_nat (length (GetRows f sheet)))%Z
       ∧ length r = length (GetRows f sheet) - Z.to_nat start.
Proof.
  unfold Colate.getRows. destruct (OpenFile file) as [e|f]; [done|].
  unfold slice_from. case_bool_decide as Hstart; [|done]. simpl.
  rewrite fillBlanks_fillDownCount. intros Hr.
  apply fillDownCount_kept in Hr as [Hk _].
  apply Forall2_length in Hk. rewrite length_drop in Hk.
  exists f. by rewrite <- Hk.
Qed.

(** An offset equal to the number of rows leaves no row, and no fault. *)
Lemma getRows_offset_at_end (file sheet : string) (f : File) (count : Z) :
  OpenFile file = inr f →
  Colate.getRows file sheet (Z.of_nat (length (GetRows f sheet))) count
  = Returns [].
Proof.
  intros Hf. unfold Colate.getRows, slice_from. rewrite Hf.
  rewrite bool_decide_true by lia. simpl.
  by rewrite Nat2Z.id, drop_all.
Qed.

(** With a limit [count >= 1], the loop fills the first [count] rows and
    returns the others with them. *)
Lemma fillBlanks_limited (count : Z) (rows : Sheet) :
  (1 ≤ count ≤ int_max)%Z →
  lookupsInRange (take (Z.to_nat count) rows) = true →
  Colate.fillBlanks count rows
  = Returns (fillDownSpec (take (Z.to_nat count) rows)
             ++ drop (Z.to_nat count) rows).
Proof.
  intros Hcount Hin.
  rewrite fillBlanks_fillDownCount, fillDownCount_limited by done.
  by rewrite fillDownAll_in_range.
Qed.
End GetRowsFacts.

(** * The claims of the specification *)

(** C1 (the code does not do this).  The row count does not cap the rows
    returned: with [rowCount = 2] and a sheet of five rows, [getRows]
    returns the five rows, the fill-down having stopped after the second,
    and the file loop emits five rows for the file. *)
Theorem C1_row_count_does_not_truncate :
  Colate.getRows (P := Disk.platform Examples.oneFile)
    "in/f.xlsx" "Sheet1" 0 2
  = Returns [["a"; "1"]; ["a"; "2"]; [EmptyString; "3"]; [EmptyString; "4"];
             [EmptyString; "5"]]
  ∧ Colate.run (P := Disk.platform Examples.oneFile) (T := GoTemplate.engine)
      (Colate.mkFlags "Sheet1" 0 2) [[GoTemplate.Field "FileName"]] "in"
    = Returns ([["f.xlsx"; "a"; "1"]; ["f.xlsx"; "a"; "2"];
                ["f.xlsx"; EmptyString; "3"]; ["f.xlsx"; EmptyString; "4"];
                ["f.xlsx"; EmptyString; "5"]], []).
Proof. split; vm_compute; reflexivity. Qed.

(** C3 (the code does not do this).  A start offset greater than the
    number of rows of the sheet makes [rows[start:]] fault with slice
    bounds out of range, in both versions of [getRows]; no empty sequence
    is returned. *)
Theorem C3_offset_past_the_rows_faults `{P : Platform} (file sheet : string)
    (f : File) (start count : Z) :
  OpenFile file = inr f →
  (Z.of_nat (length (GetRows f sheet)) < start)%Z →
  Colate.getRows file sheet start count = Panics SliceBoundsOutOfRange
  ∧ MainGo.getRows file sheet start = Panics SliceBoundsOutOfRange.
Proof.
  intros Hf Hstart. unfold Colate.getRows, MainGo.getRows, slice_from.
  rewrite Hf. by rewrite bool_decide_false by lia.
Qed.

Lemma C3_offset_past_the_rows_faults_witness :
  Colate.getRows (P := Disk.platform Examples.oneFile)
    "in/f.xlsx" "Sheet1" 6 0
  = Panics SliceBoundsOutOfRange
  ∧ MainGo.getRows (P := Disk.platform Examples.oneFile)
      "in/f.xlsx" "Sheet1" 6
    = Panics SliceBoundsOutOfRange.
Proof.
  apply (C3_offset_past_the_rows_faults (P := Disk.platform Examples.oneFile)
           "in/f.xlsx" "Sheet1" [("Sheet1", Examples.fiveRows)] 6 0);
    [reflexivity | vm_compute; reflexivity].
Defined.

(** C4 as the specification states it fails: a template that writes text
    before it fails leaves that text in its cell.  Here the template
    [x{{.Nope}}] fails on the missing field after writing [x]; the cell
    holds [x], a warning is logged, and the row is kept. *)
Lemma C4_failing_template_cell_not_empty :
  (Execute (TextTemplate := GoTemplate.engine)
     [GoTemplate.Text "x"; GoTemplate.Field "Nope"]
     (rowContext "f.xlsx" 0 ["v"])).2
  = Some (GoTemplate.CantEvaluateField "Nope")
  ∧ Colate.prependColumns (T := GoTemplate.engine) [["v"]]
      (mkColumnData [] "f.xlsx" 0)
      [[GoTemplate.Text "x"; GoTemplate.Field "Nope"]] []
    = ([["x"; "v"]],
       [Colate.Warnw "error executing column template"
          (GoTemplate.CantEvaluateField "Nope")
          [GoTemplate.Text "x"; GoTemplate.Field "Nope"]
          (rowContext "f.xlsx" 0 ["v"])])
  ∧ "x" ≠ EmptyString.
Proof. split; [|split]; [vm_compute; reflexivity..|discriminate]. Qed.

(** C5.  For every row, [prependColumns] produces one value per template,
    each evaluated on the row's [ColumnData] (its cells, the file name,
    its index), and puts them in front of the row's cells in the order of
    the templates; the rows keep their number and order. *)
Theorem C5_values_prepended_in_template_order `{T : TextTemplate}
    (rows : Sheet) (columnData : ColumnData) (sources : list Template)
    (log : list Colate.LogRecord) (ri : nat) (row : Row) :
  rows !! ri = Some row →
  (Colate.prependColumns rows columnData sources log).1 !! ri
  = Some (((λ source,
              (Execute source
                 {| Cells := row; FileName := FileName columnData;
                    RowNum := Z.of_nat ri |}).1) <$> sources) ++ row)
  ∧ length (((λ source,
                (Execute source
                   {| Cells := row; FileName := FileName columnData;
                      RowNum := Z.of_nat ri |}).1) <$> sources))
    = length sources
  ∧ length (Colate.prependColumns rows columnData sources log).1
    = length rows.
Proof.
  intros Hrow. rewrite prependColumns_rowByRow. simpl.
  rewrite list_lookup_imap, Hrow, length_fmap, length_imap. done.
Qed.

Lemma C5_values_prepended_in_template_order_witness :
  (Colate.prependColumns (T := GoTemplate.engine)
     [["t1"; "t2"]; ["u1"; "u2"]; ["v1"; "v2"]] (mkColumnData [] "f.xlsx" 0)
     [[GoTemplate.Field "FileName"]; [GoTemplate.Field "RowNum"]] []).1 !! 2
  = Some (["f.xlsx"; "2"] ++ ["v1"; "v2"])
  ∧ length ["f.xlsx"; "2"] = 2
  ∧ length (Colate.prependColumns (T := GoTemplate.engine)
              [["t1"; "t2"]; ["u1"; "u2"]; ["v1"; "v2"]]
              (mkColumnData [] "f.xlsx" 0)
              [[GoTemplate.Field "FileName"]; [GoTemplate.Field "RowNum"]]
              []).1
    = 3.
Proof.
  apply (C5_values_prepended_in_template_order (T := GoTemplate.engine)
           [["t1"; "t2"]; ["u1"; "u2"]; ["v1"; "v2"]]
           (mkColumnData [] "f.xlsx" 0)
           [[GoTemplate.Field "FileName"]; [GoTemplate.Field "RowNum"]] []
           2 ["v1"; "v2"]).
  reflexivity.
Defined.


(** C7.  The fill-down loop never changes the first row: whatever it
    returns starts with the first row of its input, empty cells
    included. *)
Theorem C7_first_row_unchanged `{P : Platform} (rows r : Sheet) (count : Z) :
  Colate.fillBlanks count rows = Returns r ∨ MainGo.fillBlanks rows = Returns r →
  head r = head rows.
Proof.
  rewrite fillBlanks_fillDownCount, MainGo_fillBlanks_fillDownAll.
  intros [Hr|Hr].
  - by apply fillDownCount_kept in Hr as [_ ?].
  - by apply fillDownAll_kept in Hr as [_ ?].
Qed.

Lemma C7_first_row_unchanged_witness :
  Colate.fillBlanks (P := Disk.platform Examples.oneFile) 0
    [[EmptyString; "x"]; ["y"; EmptyString]]
  = Returns [[EmptyString; "x"]; ["y"; "x"]]
  ∧ head [[EmptyString; "x"]; ["y"; "x"]]
    = head [[EmptyString; "x"]; ["y"; EmptyString]].
Proof.
  split; [reflexivity|].
  apply (C7_first_row_unchanged (P := Disk.platform Examples.oneFile)
           [[EmptyString; "x"]; ["y"; EmptyString]]
           [[EmptyString; "x"]; ["y"; "x"]] 0).
  left. reflexivity.
Defined.

(** C8.  On a sheet with no empty cell the fill-down loop returns the
    sheet as it is, whatever the shape of its rows. *)
Theorem C8_identity_without_empty_cells `{P : Platform} (rows : Sheet)
    (count : Z) :
  Forall noEmptyCell rows →
  Colate.fillBlanks count rows = Returns rows
  ∧ MainGo.fillBlanks rows = Returns rows.
Proof.
  intros Hrows.
  rewrite fillBlanks_fillDownCount, MainGo_fillBlanks_fillDownAll.
  by rewrite fillDownCount_noEmptyCell, fillDownAll_noEmptyCell.
Qed.

Lemma C8_identity_without_empty_cells_witness :
  Colate.fillBlanks (P := Disk.platform Examples.oneFile) 0
    [["a"; "b"]; ["c"]; ["d"; "e"; "f"]]
  = Returns [["a"; "b"]; ["c"]; ["d"; "e"; "f"]]
  ∧ MainGo.fillBlanks (P := Disk.platform Examples.oneFile)
      [["a"; "b"]; ["c"]; ["d"; "e"; "f"]]
    = Returns [["a"; "b"]; ["c"]; ["d"; "e"; "f"]].
Proof.
  apply (C8_identity_without_empty_cells
           (P := Disk.platform Examples.oneFile)
           [["a"; "b"]; ["c"]; ["d"; "e"; "f"]] 0).
  repeat constructor; discriminate.
Defined.

(** C9.  The rows handed to the output are the rows of each file, in the
    order [listFiles] gives the files (the order of the directory listing),
    each file's rows in their own order: when every listed file can be
    read, [run] returns the concatenation of the files' rows. *)
Theorem C9_output_concatenates_files_in_order `{P : Platform}
    `{T : TextTemplate} (flags : Colate.Flags) (columns : list Template)
    (dir : string) (names : list string) (perFile : list Sheet) :
  ReadDir dir = inr names →
  Forall2 (λ file rowsF, fileRows flags columns file = Returns rowsF)
          (Join dir <$> List.filter isXlsx names) perFile →
  ∃ log, Colate.run flags columns dir = Returns (concat perFile, log).
Proof.
  intros Hdir Hfiles. unfold Colate.run.
  rewrite (listFiles_filter dir names Hdir). simpl.
  apply (collate_concat flags columns _ perFile [] [] Hfiles).
Qed.

Lemma C9_output_concatenates_files_in_order_witness :
  ∃ log,
    Colate.run (P := Disk.platform Examples.twoFiles) (T := GoTemplate.engine)
      (Colate.mkFlags "Sheet1" 0 0) [[GoTemplate.Field "FileName"]] "in"
    = Returns (concat [[["A.xlsx"; "a1"]; ["A.xlsx"; "a2"]];
                       [["B.xlsx"; "b1"]]], log).
Proof.
  apply (C9_output_concatenates_files_in_order
           (P := Disk.platform Examples.twoFiles) (T := GoTemplate.engine)
           (Colate.mkFlags "Sheet1" 0 0) [[GoTemplate.Field "FileName"]] "in"
           ["A.xlsx"; "B.xlsx"]
           [[["A.xlsx"; "a1"]; ["A.xlsx"; "a2"]]; [["B.xlsx"; "b1"]]]).
  - reflexivity.
  - repeat constructor.
Defined.

(** C10.  Whatever the fill-down loop returns has the rows of its input,
    each of the length it had, and every cell of the output is the cell of
    the input at the same place unless that cell was empty. *)
Theorem C10_fill_down_frame `{P : Platform} (rows r : Sheet) (count : Z) :
  Colate.fillBlanks count rows = Returns r ∨ MainGo.fillBlanks rows = Returns r →
  length r = length rows
  ∧ ∀ i row row', rows !! i = Some row → r !! i = Some row' →
      length row' = length row
      ∧ ∀ j cell cell', row !! j = Some cell → row' !! j = Some cell' →
          cell' = cell ∨ cell = EmptyString.
Proof.
  rewrite fillBlanks_fillDownCount, MainGo_fillBlanks_fillDownAll.
  intros [Hr|Hr]; apply Forall2_kept_length.
  - by apply fillDownCount_kept in Hr as [? _].
  - by apply fillDownAll_kept in Hr as [? _].
Qed.

Lemma C10_fill_down_frame_witness :
  MainGo.fillBlanks (P := Disk.platform Examples.oneFile)
    [["a"; EmptyString]; [EmptyString; "c"; "d"]; ["e"]]
  = Returns [["a"; EmptyString]; ["a"; "c"; "d"]; ["e"]]
  ∧ length [["a"; EmptyString]; ["a"; "c"; "d"]; ["e"]]
    = length [["a"; EmptyString]; [EmptyString; "c"; "d"]; ["e"]]
  ∧ ∀ i row row',
      [["a"; EmptyString]; [EmptyString; "c"; "d"]; ["e"]] !! i = Some row →
      [["a"; EmptyString]; ["a"; "c"; "d"]; ["e"]] !! i = Some row' →
      length row' = length row
      ∧ ∀ j cell cell', row !! j = Some cell → row' !! j = Some cell' →
          cell' = cell ∨ cell = EmptyString.
Proof.
  split; [reflexivity|].
  apply (C10_fill_down_frame (P := Disk.platform Examples.oneFile)
           [["a"; EmptyString]; [EmptyString; "c"; "d"]; ["e"]]
           [["a"; EmptyString]; ["a"; "c"; "d"]; ["e"]] 0).
  right. reflexivity.
Defined.

(** * Further properties of the code *)

(** ** The fill-down loop of [getRows] *)
Section FillDownMore.
Context {E : Type}.

(** Filling a filled row against the same row above changes nothing. *)
Lemma inheritRow_again (row prev r : Row) :
  inheritRow (E := E) prev row = Returns r →
  inheritRow (E := E) prev r = Returns r.
Proof.
  revert prev r. induction row as [|cell row IH]; intros prev r Hr.
  { simpl in Hr. by injection Hr as <-. }
  simpl in Hr. unfold inheritCell in Hr.
  destruct (head prev) as [v|] eqn:Hv;
    destruct (inheritRow (tail prev) row) as [r'| |] eqn:Hr';
    case_bool_decide; simplify_eq/=;
    rewrite ?Hv, (IH _ _ Hr'); unfold inheritCell;
    by repeat case_bool_decide.
Qed.

Lemma inheritRows_again (rows : Sheet) (count : Z) (prev : Row) (r : Sheet) :
  inheritRows (E := E) count prev rows = Returns r →
  inheritRows (E := E) count prev r = Returns r.
Proof.
  revert count prev r.
  induction rows as [|row rows IH]; intros count prev r Hr.
  { simpl in Hr. by injection Hr as <-. }
  simpl in Hr.
  destruct (inheritRow prev row) as [row'| |] eqn:Hrow; simplify_eq/=.
  apply inheritRow_again in Hrow.
  case_bool_decide as Hcount; simplify_eq/=.
  - rewrite Hrow. simpl. by rewrite bool_decide_true by done.
  - destruct (inheritRows _ row' rows) as [rest| |] eqn:Hrest; simplify_eq/=.
    rewrite Hrow. simpl. rewrite bool_decide_false by done.
    by rewrite (IH _ _ _ Hrest).
Qed.

Lemma inheritAll_again (rows : Sheet) (prev : Row) (r : Sheet) :
  inheritAll (E := E) prev rows = Returns r →
  inheritAll (E := E) prev r = Returns r.
Proof.
  revert prev r. induction rows as [|row rows IH]; intros prev r Hr.
  { simpl in Hr. by injection Hr as <-. }
  simpl in Hr.
  destruct (inheritRow prev row) as [row'| |] eqn:Hrow; simplify_eq/=.
  destruct (inheritAll row' rows) as [rest| |] eqn:Hrest; simplify_eq/=.
  rewrite (inheritRow_again _ _ _ Hrow). simpl.
  by rewrite (IH _ _ Hrest).
Qed.

Lemma fillDownCount_again (count : Z) (rows r : Sheet) :
  fillDownCount (E := E) count rows = Returns r →
  fillDownCount (E := E) count r = Returns r.
Proof.
  destruct rows as [|first rest]; simpl; intros Hr.
  { by injection Hr as <-. }
  case_bool_decide as Hcount; simplify_eq/=.
  - by rewrite bool_decide_true by done.
  - destruct (inheritRows _ first rest) as [rest'| |] eqn:Hrest; simplify_eq/=.
    rewrite bool_decide_false by done.
    by rewrite (inheritRows_again _ _ _ _ Hrest).
Qed.

Lemma fillDownAll_again (rows r : Sheet) :
  fillDownAll (E := E) rows = Returns r →
  fillDownAll (E := E) r = Returns r.
Proof.
  destruct rows as [|first rest]; simpl; intros Hr.
  { by injection Hr as <-. }
  destruct (inheritAll first rest) as [rest'| |] eqn:Hrest; simplify_eq/=.
  by rewrite (inheritAll_again _ _ _ Hrest).
Qed.

(** The rows before a point do not depend on the rows after it. *)
Lemma inheritRows_take (rows : Sheet) (count : Z) (prev : Row) (r : Sheet)
    (k : nat) :
  inheritRows (E := E) count prev rows = Returns r →
  inheritRows (E := E) count prev (take k rows) = Returns (take k r).
Proof.
  revert count prev r k.
  induction rows as [|row rows IH]; intros count prev r k Hr.
  { simpl in Hr. injection Hr as <-. by rewrite take_nil. }
  simpl in Hr.
  destruct (inheritRow prev row) as [row'| |] eqn:Hrow; simplify_eq/=.
  destruct k as [|k]; [by case_bool_decide; repeat case_match; simplify_eq/=|].
  simpl. rewrite Hrow. simpl.
  case_bool_decide as Hcount; simplify_eq/=; [done|].
  destruct (inheritRows _ row' rows) as [rest| |] eqn:Hrest; simplify_eq/=.
  by rewrite (IH _ _ _ k Hrest).
Qed.

Lemma inheritAll_take (rows : Sheet) (prev : Row) (r : Sheet) (k : nat) :
  inheritAll (E := E) prev rows = Returns r →
  inheritAll (E := E) prev (take k rows) = Returns (take k r).
Proof.
  revert prev r k. induction rows as [|row rows IH]; intros prev r k Hr.
  { simpl in Hr. injection Hr as <-. by rewrite take_nil. }
  simpl in Hr.
  destruct (inheritRow prev row) as [row'| |] eqn:Hrow; simplify_eq/=.
  destruct (inheritAll row' rows) as [rest| |] eqn:Hrest; simplify_eq/=.
  destruct k as [|k]; [done|].
  simpl. rewrite Hrow. simpl. by rewrite (IH _ _ k Hrest).
Qed.

Lemma fillDownCount_take (count : Z) (rows r : Sheet) (k : nat) :
  fillDownCount (E := E) count rows = Returns r →
  fillDownCount (E := E) count (take k rows) = Returns (take k r).
Proof.
  destruct rows as [|first rest]; simpl; intros Hr.
  { injection Hr as <-. by rewrite take_nil. }
  destruct k as [|k].
  { by case_bool_decide; repeat case_match; simplify_eq/=. }
  simpl. case_bool_decide as Hcount; simplify_eq/=; [done|].
  destruct (inheritRows _ first rest) as [rest'| |] eqn:Hrest; simplify_eq/=.
  by rewrite (inheritRows_take _ _ _ _ k Hrest).
Qed.

Lemma fillDownAll_take (rows r : Sheet) (k : nat) :
  fillDownAll (E := E) rows = Returns r →
  fillDownAll (E := E) (take k rows) = Returns (take k r).
Proof.
  destruct rows as [|first rest]; simpl; intros Hr.
  { injection Hr as <-. by rewrite take_nil. }
  destruct (inheritAll first rest) as [rest'| |] eqn:Hrest; simplify_eq/=.
  destruct k as [|k]; [done|].
  simpl. by rewrite (inheritAll_take _ _ _ k Hrest).
Qed.

(** A cell left empty sits under an empty cell. *)
Lemma inheritRow_empty_under_empty (row prev r : Row) (j : nat) :
  inheritRow (E := E) prev row = Returns r →
  r !! j = Some EmptyString → prev !! j = Some EmptyString.
Proof.
  revert prev r j. induction row as [|cell row IH]; intros prev r j Hr Hj.
  { simpl in Hr. by simplify_eq. }
  simpl in Hr. unfold inheritCell in Hr.
  destruct (inheritRow (tail prev) row) as [r'| |] eqn:Hr';
    repeat (case_bool_decide || case_match); simplify_eq/=.
  - destruct j as [|j]; simplify_eq/=.
    + by rewrite <- head_lookup.
    + rewrite <- lookup_tail. by eapply IH.
  - destruct j as [|j]; simplify_eq/=.
    rewrite <- lookup_tail. by eapply IH.
Qed.

Lemma inheritAll_empty_under_empty (rows : Sheet) (prev : Row) (r : Sheet)
    (i j : nat) (above row : Row) :
  inheritAll (E := E) prev rows = Returns r →
  (prev :: r) !! i = Some above → r !! i = Some row →
  row !! j = Some EmptyString → above !! j = Some EmptyString.
Proof.
  revert prev r i. induction rows as [|row0 rows IH]; intros prev r i Hr.
  { simpl in Hr. by simplify_eq. }
  simpl in Hr.
  destruct (inheritRow prev row0) as [row'| |] eqn:Hrow; simplify_eq/=.
  destruct (inheritAll row' rows) as [rest| |] eqn:Hrest; simplify_eq/=.
  destruct i as [|i]; simpl; intros Habove Hi Hj; simplify_eq.
  - by eapply inheritRow_empty_under_empty.
  - by eapply (IH _ _ i Hrest).
Qed.

(** Neither loop returns an error, and a fault of theirs is an index out
    of range. *)
Lemma inheritRow_outcome (row prev : Row) :
  (∃ r, inheritRow (E := E) prev row = Returns r)
  ∨ inheritRow (E := E) prev row = Panics IndexOutOfRange.
Proof.
  destruct (covers prev row) eqn:Hc.
  - left. eexists. by apply inheritRow_covers.
  - right. by apply inheritRow_not_covers.
Qed.

Lemma inheritRows_outcome (rows : Sheet) (count : Z) (prev : Row) :
  (∃ r, inheritRows (E := E) count prev rows = Returns r)
  ∨ inheritRows (E := E) count prev rows = Panics IndexOutOfRange.
Proof.
  revert count prev. induction rows as [|row rows IH]; intros count prev.
  { left. by eexists. }
  simpl. destruct (inheritRow_outcome row prev) as [[row' ->]| ->]; simpl;
    [|by right].
  case_bool_decide; [left; by eexists|].
  destruct (IH (wrap (count - 1)) row') as [[rest ->]| ->]; simpl;
    [left; by eexists | by right].
Qed.

Lemma fillDownCount_outcome (count : Z) (rows : Sheet) :
  (∃ r, fillDownCount (E := E) count rows = Returns r)
  ∨ fillDownCount (E := E) count rows = Panics IndexOutOfRange.
Proof.
  destruct rows as [|first rest]; simpl; [left; by eexists|].
  case_bool_decide; [left; by eexists|].
  destruct (inheritRows_outcome rest (wrap (count - 1)) first)
    as [[rest' ->]| ->]; simpl; [left; by eexists | by right].
Qed.

(** Rows of one width, or rows that only get shorter, keep every lookup
    in range. *)
Lemma covers_shorter (row prev : Row) :
  length row ≤ length prev → covers prev row = true.
Proof.
  revert prev. induction row as [|cell row IH]; intros prev Hlen; [done|].
  destruct prev as [|p prev]; simpl in *; [lia|].
  rewrite IH by lia. by rewrite orb_true_r.
Qed.

Lemma coversAll_same_width (rows : Sheet) (prev : Row) (w : nat) :
  length prev = w → Forall (λ row, length row = w) rows →
  coversAll prev rows = true.
Proof.
  revert prev. induction rows as [|row rows IH]; intros prev Hprev Hrows.
  { done. }
  apply Forall_cons in Hrows as [Hrow Hrows]. simpl.
  rewrite covers_shorter by lia. by rewrite IH.
Qed.

Lemma lookupsInRange_same_width (rows : Sheet) (w : nat) :
  Forall (λ row, length row = w) rows → lookupsInRange rows = true.
Proof.
  destruct rows as [|first rest]; [done|]. intros Hrows.
  apply Forall_cons in Hrows as [Hfirst Hrest].
  by apply (coversAll_same_width rest first w).
Qed.

(** Under a row without empty cells, a row that is not longer has none
    after the fill. *)
Lemma fillRowSpec_noEmptyCell (row prev : Row) :
  noEmptyCell prev → length row ≤ length prev →
  noEmptyCell (fillRowSpec prev row).
Proof.
  revert prev. induction row as [|cell row IH]; intros prev Hprev Hlen.
  { constructor. }
  rewrite fillRowSpec_cons.
  destruct prev as [|p prev]; simpl in *; [lia|].
  apply Forall_cons in Hprev as [Hp Hprev].
  constructor; [by case_bool_decide|]. apply IH; [done|lia].
Qed.

Lemma fillAfterSpec_noEmptyCell (rows : Sheet) (prev : Row) (w : nat) :
  noEmptyCell prev → length prev = w →
  Forall (λ row, length row = w) rows →
  Forall noEmptyCell (fillAfterSpec prev rows).
Proof.
  revert prev. induction rows as [|row rows IH]; intros prev Hprev Hw Hrows.
  { constructor. }
  apply Forall_cons in Hrows as [Hrow Hrows]. simpl.
  assert (noEmptyCell (fillRowSpec prev row))
    by (apply fillRowSpec_noEmptyCell; [done|lia]).
  constructor; [done|].
  apply IH; [done| |done]. rewrite length_fillRowSpec. lia.
Qed.
End FillDownMore.

Section GetRowsMore.
Context `{P : Platform}.

(** X1.  The fill-down loop is idempotent: run on what it returned, it
    returns the same sheet, in both versions and whatever the count. *)
Theorem fill_down_idempotent (rows r : Sheet) (count : Z) :
  (Colate.fillBlanks count rows = Returns r →
   Colate.fillBlanks count r = Returns r)
  ∧ (MainGo.fillBlanks rows = Returns r → MainGo.fillBlanks r = Returns r).
Proof.
  rewrite !fillBlanks_fillDownCount, !MainGo_fillBlanks_fillDownAll.
  split; [apply fillDownCount_again | apply fillDownAll_again].
Qed.

(** X2.  The fill-down only flows forward: the first [k] rows of the result
    are the result on the first [k] rows of the sheet, so no row depends on
    a row after it. *)
Theorem fill_down_prefix (rows r : Sheet) (count : Z) (k : nat) :
  (Colate.fillBlanks count rows = Returns r →
   Colate.fillBlanks count (take k rows) = Returns (take k r))
  ∧ (MainGo.fillBlanks rows = Returns r →
     MainGo.fillBlanks (take k rows) = Returns (take k r)).
Proof.
  rewrite !fillBlanks_fillDownCount, !MainGo_fillBlanks_fillDownAll.
  split; [apply fillDownCount_take | apply fillDownAll_take].
Qed.

(** X3.  After a fill-down over the whole sheet, a cell that is still empty
    sits under an empty cell of the row before it: a blank is left only
    where the column has been blank since the first row. *)
Theorem fill_down_blank_only_under_blank (rows r : Sheet) (count : Z)
    (i j : nat) (above row : Row) :
  MainGo.fillBlanks rows = Returns r
  ∨ (Colate.fillBlanks count rows = Returns r
     ∧ (int_min ≤ count ≤ 0)%Z ∧ (Z.of_nat (length rows) ≤ int_max)%Z) →
  r !! i = Some above → r !! S i = Some row →
  row !! j = Some EmptyString → above !! j = Some EmptyString.
Proof.
  intros Hr Habove Hrow Hj.
  assert (Hall : fillDownAll (E := error) rows = Returns r).
  { destruct Hr as [Hr|(Hr & Hcount & Hlen)].
    - by rewrite <- MainGo_fillBlanks_fillDownAll.
    - by rewrite <- (fillDownCount_unlimited count),
        <- fillBlanks_fillDownCount. }
  destruct rows as [|first rest]; simpl in Hall; [by simplify_eq|].
  destruct (inheritAll first rest) as [rest'| |] eqn:Hrest; simplify_eq/=.
  by eapply (inheritAll_empty_under_empty rest first rest' i j).
Qed.

Lemma getRows_unlimited (file sheet : string) (start count : Z) :
  (int_min ≤ count ≤ 0)%Z →
  (∀ f, OpenFile file = inr f →
        (Z.of_nat (length (GetRows f sheet)) ≤ int_max)%Z) →
  Colate.getRows file sheet start count = MainGo.getRows file sheet start.
Proof.
  intros Hcount Hlen. unfold Colate.getRows, MainGo.getRows.
  destruct (OpenFile file) as [e|f] eqn:Hf; [done|].
  specialize (Hlen f eq_refl). unfold slice_from.
  case_bool_decide; [|done]. simpl.
  rewrite fillBlanks_fillDownCount, MainGo_fillBlanks_fillDownAll.
  apply fillDownCount_unlimited; [done|].
  rewrite length_drop. lia.
Qed.

(** X4.  With no row limit the latest [getRows] is the [getRows] of
    [main.go]: same rows, same error, same fault. *)
Theorem getRows_without_limit_is_main_go (file sheet : string)
    (start count : Z) :
  (int_min ≤ count ≤ 0)%Z →
  (∀ f, OpenFile file = inr f →
        (Z.of_nat (length (GetRows f sheet)) ≤ int_max)%Z) →
  Colate.getRows file sheet start count = MainGo.getRows file sheet start.
Proof. apply getRows_unlimited. Qed.

(** X5.  The only error [getRows] returns is the one of [OpenFile]: a
    sheet that is missing or empty is not an error, and the loop returns
    none. *)
Theorem getRows_fails_iff_open_fails (file sheet : string) (start count : Z)
    (e : error) :
  Colate.getRows file sheet start count = Fails e ↔ OpenFile file = inl e.
Proof.
  unfold Colate.getRows. destruct (OpenFile file) as [e'|f].
  - split; intros; by simplify_eq.
  - split; [|done]. unfold slice_from. case_bool_decide; [|done]. simpl.
    rewrite fillBlanks_fillDownCount.
    by destruct (fillDownCount_outcome (E := error) count
                   (drop (Z.to_nat start) (GetRows f sheet)))
      as [[r ->]| ->].
Qed.

(** X6.  A start offset equal to the number of rows leaves no row: both
    versions return the empty sheet, without a fault. *)
Theorem getRows_offset_at_the_end (file sheet : string) (f : File)
    (count : Z) :
  OpenFile file = inr f →
  Colate.getRows file sheet (Z.of_nat (length (GetRows f sheet))) count
  = Returns []
  ∧ MainGo.getRows file sheet (Z.of_nat (length (GetRows f sheet)))
    = Returns [].
Proof.
  intros Hf. unfold Colate.getRows, MainGo.getRows, slice_from. rewrite Hf.
  rewrite bool_decide_true by lia. simpl.
  by rewrite Nat2Z.id, drop_all.
Qed.

(** X7.  On a sheet whose rows all have the same width the fill-down never
    faults: it returns the filled sheet, rows of that width. *)
Theorem fill_down_same_width (rows : Sheet) (w : nat) (count : Z) :
  Forall (λ row, length row = w) rows →
  (int_min ≤ count ≤ 0)%Z → (Z.of_nat (length rows) ≤ int_max)%Z →
  ∃ r, Colate.fillBlanks count rows = Returns r
       ∧ MainGo.fillBlanks rows = Returns r
       ∧ Forall (λ row, length row = w) r.
Proof.
  intros Hw Hcount Hlen. exists (fillDownSpec rows).
  pose proof (lookupsInRange_same_width rows w Hw) as Hin.
  rewrite fillBlanks_fillDownCount, MainGo_fillBlanks_fillDownAll.
  rewrite fillDownCount_unlimited by done.
  rewrite fillDownAll_in_range by done. split; [done|]. split; [done|].
  pose proof (fillDownAll_in_range (E := error) rows Hin) as Hr.
  apply fillDownAll_kept in Hr as [Hk _].
  apply Forall_lookup. intros i row' Hrow'.
  destruct (Forall2_lookup_r _ _ _ _ _ Hk Hrow') as (row & Hrow & Hcells).
  rewrite <- (Forall2_length _ _ _ Hcells).
  by eapply (Forall_lookup_1 _ _ _ _ Hw).
Qed.

(** X8.  On a sheet of one width whose first row has no empty cell, the
    filled sheet has no empty cell at all. *)
Theorem fill_down_complete_first_row (first : Row) (rest : Sheet) (count : Z) :
  noEmptyCell first →
  Forall (λ row, length row = length first) rest →
  (int_min ≤ count ≤ 0)%Z →
  (Z.of_nat (length (first :: rest)) ≤ int_max)%Z →
  ∃ r, Colate.fillBlanks count (first :: rest) = Returns r
       ∧ MainGo.fillBlanks (first :: rest) = Returns r
       ∧ Forall noEmptyCell r.
Proof.
  intros Hfirst Hw Hcount Hlen. exists (fillDownSpec (first :: rest)).
  assert (Hin : lookupsInRange (first :: rest) = true).
  { apply (lookupsInRange_same_width _ (length first)). by constructor. }
  rewrite fillBlanks_fillDownCount, MainGo_fillBlanks_fillDownAll.
  rewrite fillDownCount_unlimited by done.
  rewrite fillDownAll_in_range by done. split; [done|]. split; [done|].
  simpl. constructor; [done|].
  by apply (fillAfterSpec_noEmptyCell rest first (length first)).
Qed.
End GetRowsMore.

Lemma fill_down_idempotent_witness :
  Colate.fillBlanks (P := Disk.platform Examples.oneFile) 0
    [["a"; "b"]; ["a"; "c"]]
  = Returns [["a"; "b"]; ["a"; "c"]]
  ∧ MainGo.fillBlanks (P := Disk.platform Examples.oneFile)
      [["a"; "b"]; ["a"; "c"]]
    = Returns [["a"; "b"]; ["a"; "c"]].
Proof.
  split.
  - apply (proj1 (fill_down_idempotent (P := Disk.platform Examples.oneFile)
                    [["a"; "b"]; [EmptyString; "c"]]
                    [["a"; "b"]; ["a"; "c"]] 0)).
    reflexivity.
  - apply (proj2 (fill_down_idempotent (P := Disk.platform Examples.oneFile)
                    [["a"; "b"]; [EmptyString; "c"]]
                    [["a"; "b"]; ["a"; "c"]] 0)).
    reflexivity.
Defined.

Lemma fill_down_prefix_witness :
  Colate.fillBlanks (P := Disk.platform Examples.oneFile) 0
    [["a"]; [EmptyString]]
  = Returns [["a"]; ["a"]]
  ∧ MainGo.fillBlanks (P := Disk.platform Examples.oneFile)
      [["a"]; [EmptyString]]
    = Returns [["a"]; ["a"]].
Proof.
  split.
  - apply (proj1 (fill_down_prefix (P := Disk.platform Examples.oneFile)
                    [["a"]; [EmptyString]; ["b"]; [EmptyString]]
                    [["a"]; ["a"]; ["b"]; ["b"]] 0 2)).
    reflexivity.
  - apply (proj2 (fill_down_prefix (P := Disk.platform Examples.oneFile)
                    [["a"]; [EmptyString]; ["b"]; [EmptyString]]
                    [["a"]; ["a"]; ["b"]; ["b"]] 0 2)).
    reflexivity.
Defined.

Lemma fill_down_blank_only_under_blank_witness :
  MainGo.fillBlanks (P := Disk.platform Examples.oneFile)
    [[EmptyString; "x"]; [EmptyString; EmptyString]]
  = Returns [[EmptyString; "x"]; [EmptyString; "x"]]
  ∧ [EmptyString; "x"] !! 0 = Some EmptyString.
Proof.
  split; [reflexivity|].
  apply (fill_down_blank_only_under_blank
           (P := Disk.platform Examples.oneFile)
           [[EmptyString; "x"]; [EmptyString; EmptyString]]
           [[EmptyString; "x"]; [EmptyString; "x"]] 0 0 0
           [EmptyString; "x"] [EmptyString; "x"]);
    first [reflexivity | left; reflexivity].
Defined.

Lemma getRows_without_limit_is_main_go_witness :
  Colate.getRows (P := Disk.platform Examples.oneFile) "in/f.xlsx" "Sheet1" 1 0
  = MainGo.getRows (P := Disk.platform Examples.oneFile)
      "in/f.xlsx" "Sheet1" 1.
Proof.
  apply (getRows_without_limit_is_main_go
           (P := Disk.platform Examples.oneFile) "in/f.xlsx" "Sheet1" 1 0).
  - vm_compute. intuition discriminate.
  - intros f Hf. injection Hf as <-. vm_compute. discriminate.
Defined.

Lemma getRows_fails_iff_open_fails_witness :
  Colate.getRows (P := Disk.platform Examples.oneFile)
    "in/missing.xlsx" "Sheet1" 0 0
  = Fails "open: no such file".
Proof.
  apply (proj2 (getRows_fails_iff_open_fails
                  (P := Disk.platform Examples.oneFile)
                  "in/missing.xlsx" "Sheet1" 0 0 "open: no such file")).
  reflexivity.
Defined.

Lemma getRows_offset_at_the_end_witness :
  Colate.getRows (P := Disk.platform Examples.oneFile) "in/f.xlsx" "Sheet1" 5 2
  = Returns []
  ∧ MainGo.getRows (P := Disk.platform Examples.oneFile)
      "in/f.xlsx" "Sheet1" 5
    = Returns [].
Proof.
  apply (getRows_offset_at_the_end (P := Disk.platform Examples.oneFile)
           "in/f.xlsx" "Sheet1" [("Sheet1", Examples.fiveRows)] 2).
  reflexivity.
Defined.

Lemma fill_down_same_width_witness :
  ∃ r, Colate.fillBlanks (P := Disk.platform Examples.oneFile) 0
         [["a"; EmptyString]; [EmptyString; "b"]; [EmptyString; EmptyString]]
       = Returns r
       ∧ MainGo.fillBlanks (P := Disk.platform Examples.oneFile)
           [["a"; EmptyString]; [EmptyString; "b"];
            [EmptyString; EmptyString]]
         = Returns r
       ∧ Forall (λ row, length row = 2) r.
Proof.
  apply (fill_down_same_width (P := Disk.platform Examples.oneFile)
           [["a"; EmptyString]; [EmptyString; "b"];
            [EmptyString; EmptyString]] 2 0).
  - repeat constructor.
  - vm_compute. intuition discriminate.
  - vm_compute. discriminate.
Defined.

Lemma fill_down_complete_first_row_witness :
  ∃ r, Colate.fillBlanks (P := Disk.platform Examples.oneFile) 0
         (["a"; "b"] :: [[EmptyString; EmptyString]; ["c"; EmptyString]])
       = Returns r
       ∧ MainGo.fillBlanks (P := Disk.platform Examples.oneFile)
           (["a"; "b"] :: [[EmptyString; EmptyString]; ["c"; EmptyString]])
         = Returns r
       ∧ Forall noEmptyCell r.
Proof.
  apply (fill_down_complete_first_row (P := Disk.platform Examples.oneFile)
           ["a"; "b"] [[EmptyString; EmptyString]; ["c"; EmptyString]] 0).
  - repeat constructor; discriminate.
  - repeat constructor.
  - vm_compute. intuition discriminate.
  - vm_compute. discriminate.
Defined.

(** ** [prependColumns], [listFiles] and the file loop *)
Section TemplaterMore.
Context `{T : TextTemplate}.

Lemma imap_keep {A} (l : list A) : imap (λ _ x, x) l = l.
Proof.
  induction l as [|x l IH]; [done|]. rewrite imap_cons. by f_equal.
Qed.

Lemma join_imap_nil {A B} (l : list A) :
  mjoin (imap (λ _ _, @nil B) l) = [].
Proof.
  induction l as [|x l IH]; [done|]. rewrite imap_cons. apply IH.
Qed.

(** X9.  The log of [prependColumns] is the log it was given followed by
    one warning for each evaluation that failed, row after row and, in a
    row, template after template; no record is dropped or reordered. *)
Theorem prependColumns_log (rows : Sheet) (columnData : ColumnData)
    (sources : list Template) (log : list Colate.LogRecord) :
  (Colate.prependColumns rows columnData sources log).2
  = log ++ mjoin (imap (λ ri row,
                          omap (λ source,
                                  (λ e, Colate.Warnw
                                          "error executing column template"
                                          e source
                                          (rowContext (FileName columnData)
                                             ri row))
                                    <$> (Execute source
                                           (rowContext (FileName columnData)
                                              ri row)).2)
                               sources)
                       rows).
Proof. by rewrite prependColumns_rowByRow. Qed.

(** X10.  Of the [ColumnData] it is given, [prependColumns] reads the file
    name only: [Cells] and [RowNum] are set afresh for every row. *)
Theorem prependColumns_reads_file_name_only (rows : Sheet)
    (columnData columnData' : ColumnData) (sources : list Template)
    (log : list Colate.LogRecord) :
  FileName columnData = FileName columnData' →
  Colate.prependColumns rows columnData sources log
  = Colate.prependColumns rows columnData' sources log.
Proof. intros Hname. by rewrite !prependColumns_rowByRow, Hname. Qed.

(** X11.  Without templates [prependColumns] returns the rows and the log
    as they are, and without rows it returns no row and the log as it is,
    evaluating nothing. *)
Theorem prependColumns_nothing_to_do (rows : Sheet) (columnData : ColumnData)
    (sources : list Template) (log : list Colate.LogRecord) :
  Colate.prependColumns rows columnData [] log = (rows, log)
  ∧ Colate.prependColumns [] columnData sources log = ([], log).
Proof.
  rewrite !prependColumns_rowByRow. split.
  - unfold columnValues, columnWarnings. simpl.
    by rewrite imap_keep, join_imap_nil, app_nil_r.
  - simpl. by rewrite app_nil_r.
Qed.
End TemplaterMore.

Lemma prependColumns_reads_file_name_only_witness :
  Colate.prependColumns (T := GoTemplate.engine) [["v"]; ["w"]]
    (mkColumnData ["stale"] "f.xlsx" 7) [[GoTemplate.Field "RowNum"]] []
  = Colate.prependColumns (T := GoTemplate.engine) [["v"]; ["w"]]
      (mkColumnData [] "f.xlsx" 0) [[GoTemplate.Field "RowNum"]] [].
Proof.
  apply (prependColumns_reads_file_name_only (T := GoTemplate.engine)
           [["v"]; ["w"]] (mkColumnData ["stale"] "f.xlsx" 7)
           (mkColumnData [] "f.xlsx" 0) [[GoTemplate.Field "RowNum"]] []).
  reflexivity.
Defined.

Section MainMore.
Context `{P : Platform} `{T : TextTemplate}.

Lemma processFile_stops (flags : Colate.Flags) (columns : list Template)
    (file : string) (st : Sheet * list Colate.LogRecord) :
  (∀ e, fileRows flags columns file = Fails e →
        Colate.processFile flags columns file st = Fails e)
  ∧ (∀ p, fileRows flags columns file = Panics p →
          Colate.processFile flags columns file st = Panics p).
Proof.
  destruct st as [data log]. unfold fileRows, Colate.processFile.
  destruct (Colate.getRows _ _ _ _); split; intros; by simplify_eq/=.
Qed.

(** X12.  The file loop stops at the first file that cannot be read: when
    the files before it are read and [getRows] returns an error for it or
    faults on it, the loop ends with that error or fault, gives no rows,
    and the files after it do not matter. *)
Theorem collate_stops_at_first_failure (flags : Colate.Flags)
    (columns : list Template) (files1 files2 : list string) (file : string)
    (perFile : list Sheet) (st : Sheet * list Colate.LogRecord) :
  Forall2 (λ file rowsF, fileRows flags columns file = Returns rowsF)
          files1 perFile →
  (∀ e, fileRows flags columns file = Fails e →
        Colate.collate flags columns (files1 ++ file :: files2) st = Fails e)
  ∧ (∀ p, fileRows flags columns file = Panics p →
          Colate.collate flags columns (files1 ++ file :: files2) st
          = Panics p).
Proof.
  intros Hfiles. revert st.
  induction Hfiles as [|f rowsF files perFile Hf _ IH]; intros st.
  - simpl. destruct (processFile_stops flags columns file st) as [Hfail Hpanic].
    split; intros x Hx; [by rewrite (Hfail x Hx) | by rewrite (Hpanic x Hx)].
  - destruct st as [data log]. rewrite <- app_comm_cons, collate_cons.
    destruct (processFile_fileRows flags columns f data rowsF log Hf)
      as [log1 ->].
    apply IH.
Qed.

(** X13.  [listFiles] returns an error exactly when the directory cannot
    be listed; otherwise it returns the entries whose lower-cased name
    matches [*.xlsx], each once, in the order of the listing, joined to
    the directory: nothing else is returned. *)
Theorem listFiles_keeps_matches_in_order (dir : string) :
  Colate.listFiles dir
  = match ReadDir dir with
    | inl err => Fails err
    | inr names =>
        Returns (Join dir
                   <$> List.filter (λ name, Match "*.xlsx" (ToLower name))
                         names)
    end.
Proof.
  unfold Colate.listFiles. destruct (ReadDir dir) as [e|names]; [done|].
  by rewrite listFiles_fold.
Qed.
End MainMore.

Lemma collate_stops_at_first_failure_witness :
  Colate.collate (P := Disk.platform Examples.twoFiles)
    (T := GoTemplate.engine) (Colate.mkFlags "Sheet1" 0 0)
    [[GoTemplate.Field "FileName"]]
    (["in/A.xlsx"] ++ "in/missing.xlsx" :: ["in/B.xlsx"]) ([], [])
  = Fails "open: no such file".
Proof.
  apply (proj1 (collate_stops_at_first_failure
                  (P := Disk.platform Examples.twoFiles)
                  (T := GoTemplate.engine) (Colate.mkFlags "Sheet1" 0 0)
                  [[GoTemplate.Field "FileName"]]
                  ["in/A.xlsx"] ["in/B.xlsx"] "in/missing.xlsx"
                  [[["A.xlsx"; "a1"]; ["A.xlsx"; "a2"]]] ([], [])
                  ltac:(repeat constructor))).
  reflexivity.
Defined.

(** ** [insertColumn] of [main.go] *)

(** The index loop of [insertColumn] is [insertEach] on the rows. *)
Lemma insertColumnRows_insertEach (position : Z) (source : list string)
    (rest top : Sheet) :
  insertColumnRows position source (seq (length top) (length rest))
    (top ++ rest)
  = match insertEach position source (length top) rest with
    | Value r => Value (top ++ r)
    | Panic p => Panic p
    end.
Proof.
  revert top. induction rest as [|row rest IH]; intros top.
  { simpl. by rewrite app_nil_r. }
  simpl. rewrite list_lookup_middle by done.
  destruct (insertOne position source (length top) row) as [row'|p]; [|done].
  rewrite insert_middle.
  specialize (IH (top ++ [row'])).
  rewrite length_app, <- app_assoc in IH. simpl in IH.
  rewrite Nat.add_1_r in IH. rewrite IH.
  destruct (insertEach position source (S (length top)) rest); [|done].
  by rewrite <- app_assoc.
Qed.

Lemma insertColumn_insertEach (rows : Sheet) (position : Z)
    (source : list string) :
  insertColumn rows position source = insertEach position source 0 rows.
Proof.
  unfold insertColumn.
  pose proof (insertColumnRows_insertEach position source rows []) as H.
  simpl in H. rewrite H. by destruct (insertEach position source 0 rows).
Qed.

Lemma insertEach_value (position : Z) (source : list string) (rows : Sheet)
    (k : nat) :
  source ≠ [] →
  Forall (λ row, (0 ≤ position ≤ Z.of_nat (length row))%Z) rows →
  ∃ r, insertEach position source k rows = Value r
       ∧ length r = length rows
       ∧ ∀ i row, rows !! i = Some row →
           ∃ toPut, source !! ((k + i) mod length source) = Some toPut
                    ∧ r !! i
                      = Some (take (Z.to_nat position) row
                              ++ toPut :: drop (Z.to_nat position) row).
Proof.
  intros Hsource. revert k.
  induction rows as [|row rows IH]; intros k Hrows.
  { exists []. by repeat split. }
  apply Forall_cons in Hrows as [Hrow Hrows].
  destruct (IH (S k) Hrows) as (rest & Hrest & Hlen & Hcells).
  assert (Hmod : k mod length source < length source).
  { apply Nat.mod_upper_bound. by destruct source. }
  destruct (lookup_lt_is_Some_2 source _ Hmod) as [toPut HtoPut].
  simpl. unfold insertOne.
  rewrite bool_decide_false by by destruct source.
  rewrite HtoPut, bool_decide_true by done. rewrite Hrest.
  eexists. split; [done|]. split; [simpl; by rewrite Hlen|].
  intros [|i] row0 Hrow0; simplify_eq/=.
  - exists toPut. by rewrite Nat.add_0_r.
  - destruct (Hcells i row0 Hrow0) as (t & Ht & Hi).
    exists t. by rewrite Nat.add_succ_r.
Qed.

Lemma insertEach_bounds (position : Z) (source : list string) (rows : Sheet)
    (k i : nat) (row : Row) :
  source ≠ [] → rows !! i = Some row →
  ¬ (0 ≤ position ≤ Z.of_nat (length row))%Z →
  insertEach position source k rows
  = Panic (RuntimePanic SliceBoundsOutOfRange).
Proof.
  intros Hsource. revert k i.
  induction rows as [|row0 rows IH]; intros k i Hrow Hpos; [done|].
  assert (Hmod : k mod length source < length source).
  { apply Nat.mod_upper_bound. by destruct source. }
  destruct (lookup_lt_is_Some_2 source _ Hmod) as [toPut HtoPut].
  simpl. unfold insertOne.
  rewrite bool_decide_false by by destruct source.
  rewrite HtoPut.
  destruct i as [|i]; simplify_eq/=.
  - by rewrite bool_decide_false by done.
  - case_bool_decide; [|done]. by rewrite (IH (S k) i Hrow Hpos).
Qed.

Lemma insertEach_in_front (rows : Sheet) (x : string) (k : nat) :
  insertEach 0 [x] k rows = Value ((λ row, x :: row) <$> rows).
Proof.
  revert k. induction rows as [|row rows IH]; intros k; [done|].
  simpl. unfold insertOne.
  change (length [x]) with 1. rewrite Nat.mod_1_r.
  rewrite bool_decide_false by done. simpl.
  rewrite bool_decide_true by lia. by rewrite IH.
Qed.

(** X14.  With a source that is not empty and a position inside every row,
    [insertColumn] returns the rows, each with one more cell: row [ri]
    gets [source[ri % len(source)]] at [position], between the cells that
    were before and after that place. *)
Theorem insertColumn_inserts_cycling (rows : Sheet) (position : Z)
    (source : list string) :
  source ≠ [] →
  Forall (λ row, (0 ≤ position ≤ Z.of_nat (length row))%Z) rows →
  ∃ r, insertColumn rows position source = Value r
       ∧ length r = length rows
       ∧ ∀ ri row, rows !! ri = Some row →
           ∃ toPut, source !! (ri mod length source) = Some toPut
                    ∧ r !! ri
                      = Some (take (Z.to_nat position) row
                              ++ toPut :: drop (Z.to_nat position) row).
Proof.
  intros Hsource Hrows. rewrite insertColumn_insertEach.
  apply (insertEach_value position source rows 0 Hsource Hrows).
Qed.

(** X15.  With an empty source, [insertColumn] panics with a division by
    zero as soon as there is a row, and returns the empty sheet when there
    is none. *)
Theorem insertColumn_empty_source (rows : Sheet) (position : Z) :
  insertColumn rows position []
  = match rows with
    | [] => Value []
    | _ :: _ => Panic IntegerDivideByZero
    end.
Proof. rewrite insertColumn_insertEach. by destruct rows. Qed.

(** X16.  A position outside one of the rows (negative, or greater than
    its length) makes [insertColumn] panic with slice bounds out of range;
    no row is returned. *)
Theorem insertColumn_position_outside_a_row (rows : Sheet) (position : Z)
    (source : list string) (ri : nat) (row : Row) :
  source ≠ [] → rows !! ri = Some row →
  ¬ (0 ≤ position ≤ Z.of_nat (length row))%Z →
  insertColumn rows position source
  = Panic (RuntimePanic SliceBoundsOutOfRange).
Proof.
  intros Hsource Hrow Hpos. rewrite insertColumn_insertEach.
  by apply (insertEach_bounds position source rows 0 ri row).
Qed.

(** X17.  The call of [main], position 0 and a source of one value, puts
    that value in front of every row and never panics. *)
Theorem insertColumn_in_front (rows : Sheet) (x : string) :
  insertColumn rows 0 [x] = Value ((λ row, x :: row) <$> rows).
Proof. rewrite insertColumn_insertEach. apply insertEach_in_front. Qed.

Lemma insertColumn_inserts_cycling_witness :
  ∃ r, insertColumn [["a"; "b"]; ["c"; "d"]; ["e"; "f"]] 1 ["x"; "y"]
       = Value r
       ∧ length r = 3
       ∧ ∀ ri row, [["a"; "b"]; ["c"; "d"]; ["e"; "f"]] !! ri = Some row →
           ∃ toPut, ["x"; "y"] !! (ri mod 2) = Some toPut
                    ∧ r !! ri = Some (take 1 row ++ toPut :: drop 1 row).
Proof.
  apply (insertColumn_inserts_cycling
           [["a"; "b"]; ["c"; "d"]; ["e"; "f"]] 1 ["x"; "y"]).
  - discriminate.
  - repeat constructor; vm_compute; discriminate.
Defined.

Lemma insertColumn_position_outside_a_row_witness :
  insertColumn [["a"; "b"]; ["c"]] 2 ["x"]
  = Panic (RuntimePanic SliceBoundsOutOfRange).
Proof.
  apply (insertColumn_position_outside_a_row
           [["a"; "b"]; ["c"]] 2 ["x"] 1 ["c"]).
  - discriminate.
  - reflexivity.
  - vm_compute. intros [_ H]. by apply H.
Defined.

Lemma imap_fmap_ext {A B} (f : nat → A → B) (g : A → B) (l : list A) :
  (∀ i x, f i x = g x) → imap f l = g <$> l.
Proof.
  revert f. induction l as [|x l IH]; intros f Hfg; [done|].
  rewrite imap_cons, Hfg. simpl. f_equal. apply IH. intros i y. apply Hfg.
Qed.

Lemma prependColumns_file_name `{T : TextTemplate} (rows : Sheet)
    (columnData : ColumnData) (source : Template)
    (log : list Colate.LogRecord) :
  (∀ data, Execute source data = (FileName data, None)) →
  Colate.prependColumns rows columnData [source] log
  = ((λ row, FileName columnData :: row) <$> rows, log).
Proof.
  intros Hsource. rewrite prependColumns_rowByRow. f_equal.
  - apply imap_fmap_ext. intros i row.
    unfold columnValues. simpl. by rewrite Hsource.
  - rewrite (imap_fmap_ext _ (λ _, [])).
    + induction rows as [|row rows IH]; [by rewrite app_nil_r|]. apply IH.
    + intros i row. unfold columnWarnings. simpl. by rewrite Hsource.
Qed.

(** X18.  With the one template that prints the file name (the default of
    the [columns] flag), [prependColumns] gives the rows that
    [insertColumn(rows, 0, {fileBase})] gave in [main.go], and logs
    nothing. *)
Theorem prependColumns_file_name_is_insertColumn `{T : TextTemplate}
    (rows : Sheet) (columnData : ColumnData) (source : Template)
    (log : list Colate.LogRecord) :
  (∀ data, Execute source data = (FileName data, None)) →
  Value (Colate.prependColumns rows columnData [source] log).1
  = insertColumn rows 0 [FileName columnData]
  ∧ (Colate.prependColumns rows columnData [source] log).2 = log.
Proof.
  intros Hsource.
  rewrite (prependColumns_file_name rows columnData source log Hsource).
  by rewrite insertColumn_insertEach, insertEach_in_front.
Qed.

Lemma prependColumns_file_name_is_insertColumn_witness :
  Value (Colate.prependColumns (T := GoTemplate.engine) [["a"]; ["b"; "c"]]
           (mkColumnData [] "f.xlsx" 0) [[GoTemplate.Field "FileName"]] []).1
  = insertColumn [["a"]; ["b"; "c"]] 0 ["f.xlsx"]
  ∧ (Colate.prependColumns (T := GoTemplate.engine) [["a"]; ["b"; "c"]]
       (mkColumnData [] "f.xlsx" 0) [[GoTemplate.Field "FileName"]] []).2
    = [].
Proof.
  apply (prependColumns_file_name_is_insertColumn (T := GoTemplate.engine)
           [["a"]; ["b"; "c"]] (mkColumnData [] "f.xlsx" 0)
           [GoTemplate.Field "FileName"] []).
  intros data. reflexivity.
Defined.

(** ** [writeData] and [createFile] *)
Section WriteDataFacts.
Context `{Sc : Strconv} `{O : Output}.

Lemma wrap_add (a b : Z) : wrap (wrap a + b) = wrap (a + b).
Proof.
  pose proof (wrap_sub a (- b)) as H.
  by replace (wrap a - - b)%Z with (wrap a + b)%Z in H by lia;
    replace (a - - b)%Z with (a + b)%Z in H by lia.
Qed.

Lemma cellName_shift (startRow : Z) (k ri ci : nat) :
  cellName (wrap (startRow + Z.of_nat k)) ri ci
  = cellName startRow (k + ri) ci.
Proof.
  unfold cellName.
  assert (Hrow : wrap (wrap (startRow + Z.of_nat k) + Z.of_nat ri)
                 = wrap (startRow + Z.of_nat (k + ri))).
  { rewrite wrap_add. f_equal. lia. }
  by rewrite Hrow.
Qed.

Lemma writeCells_shift (startRow : Z) (sheet : string) (k ri ci : nat)
    (row : Row) (f : Book) :
  writeCells (wrap (startRow + Z.of_nat k)) sheet ri ci row f
  = writeCells startRow sheet (k + ri) ci row f.
Proof.
  revert ci f. induction row as [|value row IH]; intros ci f; [done|].
  simpl. by rewrite cellName_shift, IH.
Qed.

Lemma writeRows_shift (startRow : Z) (sheet : string) (k ri : nat)
    (data : Sheet) (f : Book) :
  writeRows (wrap (startRow + Z.of_nat k)) sheet ri data f
  = writeRows startRow sheet (k + ri) data f.
Proof.
  revert ri f. induction data as [|row data IH]; intros ri f; [done|].
  simpl. by rewrite writeCells_shift, IH, Nat.add_succ_r.
Qed.

Lemma writeRows_app (startRow : Z) (sheet : string) (ri : nat)
    (data1 data2 : Sheet) (f : Book) :
  writeRows startRow sheet ri (data1 ++ data2) f
  = writeRows startRow sheet (length data1 + ri) data2
      (writeRows startRow sheet ri data1 f).
Proof.
  revert ri f. induction data1 as [|row data1 IH]; intros ri f; [done|].
  simpl. by rewrite IH, Nat.add_succ_r.
Qed.

(** X19.  The row that [writeData] returns is where the next block goes:
    writing [data1] and then [data2] from the returned row gives the
    workbook and the row that writing [data1 ++ data2] at once gives. *)
Theorem writeData_continues (f : Book) (startRow : Z) (sheet : string)
    (data1 data2 : Sheet) :
  writeData (writeData f startRow sheet data1).1
    (writeData f startRow sheet data1).2 sheet data2
  = writeData f startRow sheet (data1 ++ data2).
Proof.
  unfold writeData. simpl. f_equal.
  - by rewrite writeRows_shift, writeRows_app, Nat.add_0_r.
  - rewrite wrap_add, length_app. f_equal. lia.
Qed.

Lemma writeCells_cells (startRow : Z) (sheet : string) (ri ci : nat)
    (row : Row) (f : Book) :
  writeCells startRow sheet ri ci row f
  = foldl (λ f c, SetCellStr f sheet c.1 c.2) f
      (imap (λ i value, (cellName startRow ri (ci + i), value)) row).
Proof.
  revert ci f. induction row as [|value row IH]; intros ci f; [done|].
  simpl. rewrite IH, Nat.add_0_r. f_equal.
  apply imap_ext. intros i x _. simpl. by rewrite Nat.add_succ_r.
Qed.

Lemma writeRows_cells (startRow : Z) (sheet : string) (ri : nat)
    (data : Sheet) (f : Book) :
  writeRows startRow sheet ri data f
  = foldl (λ f c, SetCellStr f sheet c.1 c.2) f
      (mjoin (imap (λ i row,
                      imap (λ ci value, (cellName startRow (ri + i) ci, value))
                           row)
                   data)).
Proof.
  revert ri f. induction data as [|row data IH]; intros ri f; [done|].
  simpl. rewrite foldl_app, IH, writeCells_cells, Nat.add_0_r. f_equal.
  f_equal. apply imap_ext. intros i x _. simpl. by rewrite Nat.add_succ_r.
Qed.

(** X20.  [writeData] sets each cell of the data once and nothing else:
    rows in order, cells of a row from left to right, the cell of column
    [ci] of row [ri] under the name
    [ToAlphaString(ci) + Itoa(startRow+ri+1)]. *)
Theorem writeData_sets_each_cell_once (f : Book) (startRow : Z)
    (sheet : string) (data : Sheet) :
  (writeData f startRow sheet data).1
  = foldl (λ f c, SetCellStr f sheet c.1 c.2) f
      (mjoin (imap (λ ri row,
                      imap (λ ci value,
                              (ToAlphaString (Z.of_nat ci)
                               +:+ Itoa (wrap (wrap (startRow + Z.of_nat ri)
                                               + 1)),
                               value))
                           row)
                   data)).
Proof. unfold writeData. simpl. by rewrite writeRows_cells. Qed.

Lemma createFileCells_writeCells (name : string) (ri ci : nat) (row : Row)
    (f : Book) :
  createFileCells name ri ci row f = writeCells 0 name ri ci row f.
Proof.
  revert ci f. induction row as [|value row IH]; intros ci f; [done|].
  simpl. rewrite IH. unfold cellName. by rewrite wrap_add.
Qed.

(** X21.  The [createFile] that has the loops in its body (the second
    program of [main.go]) builds the workbook that the [createFile]
    calling [writeData] from row 0 builds: the same cells under the same
    names. *)
Theorem createFile_versions_agree (name : string) (data : Sheet) :
  createFileInline name data = createFile name data.
Proof.
  unfold createFileInline, createFile, writeData.
  destruct (NewSheet NewFile name) as [f sheetIndex]. simpl.
  generalize (SetActiveSheet f sheetIndex). generalize 0.
  induction data as [|row data IH]; intros ri f0; [done|].
  simpl. by rewrite createFileCells_writeCells, IH.
Qed.
End WriteDataFacts.

(** ** [getColumns] *)
Section GetColumnsFacts.
Context `{Sc : Strconv} `{Pa : Parsing}.

Lemma parseColumns_parseEach (cpost cpre : list string)
    (pre : list (option Template)) :
  length pre = length cpre →
  parseColumns (cpre ++ cpost) (seq (length cpre) (length cpost))
    (pre ++ replicate (length cpost) None)
  = ts ← parseEach (length cpre) cpost; Returns (pre ++ (Some <$> ts)).
Proof.
  revert cpre pre. induction cpost as [|column cpost IH]; intros cpre pre Hlen.
  { done. }
  simpl. rewrite index_middle. simpl.
  destruct (Parse (Itoa (Z.of_nat (length cpre))) column) as [e|t]; [done|].
  rewrite <- Hlen, insert_middle, Hlen.
  specialize (IH (cpre ++ [column]) (pre ++ [Some t])).
  rewrite !length_app, <- !app_assoc in IH. simpl in IH.
  rewrite !Nat.add_1_r in IH. rewrite IH by lia.
  destruct (parseEach (S (length cpre)) cpost); simpl; try done.
  by rewrite <- app_assoc.
Qed.

Lemma getColumns_parseEach (columnString : string) :
  getColumns columnString
  = match CsvRead columnString with
    | inl err => Fails err
    | inr columns =>
        ts ← parseEach 0 columns;
        Returns (E := error) (Some <$> (ts : list Template))
    end.
Proof.
  unfold getColumns. destruct (CsvRead columnString) as [e|columns]; [done|].
  rewrite length_replicate.
  apply (parseColumns_parseEach columns [] [] eq_refl).
Qed.

Lemma parseEach_all (columns : list string) (ts : list Template) (k : nat) :
  length ts = length columns →
  (∀ i column, columns !! i = Some column →
     ∃ t, ts !! i = Some t
          ∧ Parse (Itoa (Z.of_nat (k + i))) column = inr t) →
  parseEach k columns = Returns ts.
Proof.
  revert ts k. induction columns as [|column columns IH]; intros ts k Hlen Hall.
  { by destruct ts. }
  destruct ts as [|t ts]; [done|]. injection Hlen as Hlen.
  destruct (Hall 0 column eq_refl) as (t' & Ht' & Hparse). simplify_eq/=.
  rewrite Nat.add_0_r in Hparse. rewrite Hparse.
  rewrite (IH ts (S k)); [done|done|].
  intros i c Hc. destruct (Hall (S i) c Hc) as (t'' & Ht'' & Hp).
  exists t''. split; [done|]. by rewrite Nat.add_succ_r in Hp.
Qed.

Lemma parseEach_first_error (columns : list string) (k j : nat)
    (column : string) (e : error) :
  columns !! j = Some column →
  Parse (Itoa (Z.of_nat (k + j))) column = inl e →
  (∀ i c, i < j → columns !! i = Some c →
     ∃ t, Parse (Itoa (Z.of_nat (k + i))) c = inr t) →
  parseEach k columns = Fails e.
Proof.
  revert columns k. induction j as [|j IH]; intros columns k Hj He Hbefore.
  - destruct columns as [|c columns]; simplify_eq/=.
    rewrite Nat.add_0_r in He. by rewrite He.
  - destruct columns as [|c columns]; simplify_eq/=.
    destruct (Hbefore 0 c ltac:(lia) eq_refl) as [t Ht].
    rewrite Nat.add_0_r in Ht. rewrite Ht.
    rewrite (IH columns (S k)); [done|done| |].
    + by rewrite Nat.add_succ_r in He.
    + intros i c' Hi Hc'.
      destruct (Hbefore (S i) c' ltac:(lia) Hc') as [t' Ht'].
      exists t'. by rewrite Nat.add_succ_r in Ht'.
Qed.

(** X22.  When every column of the record parses, [getColumns] returns one
    template per column, in the order of the columns, each parsed under
    its index as name, and no entry is nil. *)
Theorem getColumns_one_template_per_column (columnString : string)
    (columns : list string) (ts : list Template) :
  CsvRead columnString = inr columns →
  length ts = length columns →
  (∀ i column, columns !! i = Some column →
     ∃ t, ts !! i = Some t ∧ Parse (Itoa (Z.of_nat i)) column = inr t) →
  getColumns columnString = Returns (Some <$> ts).
Proof.
  intros Hread Hlen Hall. rewrite getColumns_parseEach, Hread.
  by rewrite (parseEach_all columns ts 0 Hlen Hall).
Qed.

(** X23.  [getColumns] returns the error of the record reader, or else the
    error of the first column that does not parse; it then returns no
    template, whatever the columns after it are. *)
Theorem getColumns_first_error (columnString : string) (e : error) :
  (CsvRead columnString = inl e → getColumns columnString = Fails e)
  ∧ ∀ columns j column,
      CsvRead columnString = inr columns →
      columns !! j = Some column →
      Parse (Itoa (Z.of_nat j)) column = inl e →
      (∀ i c, i < j → columns !! i = Some c →
         ∃ t, Parse (Itoa (Z.of_nat i)) c = inr t) →
      getColumns columnString = Fails e.
Proof.
  rewrite getColumns_parseEach. split.
  - by intros ->.
  - intros columns j column Hread Hj He Hbefore. rewrite Hread.
    by rewrite (parseEach_first_error columns 0 j column e Hj He Hbefore).
Qed.
End GetColumnsFacts.

Lemma getColumns_one_template_per_column_witness :
  getColumns (Pa := Flag.parsing Examples.oneFile) "{{.FileName}},row,{{.RowNum}}"
  = Returns (Some <$> [[GoTemplate.Field "FileName"]; [GoTemplate.Text "row"];
                       [GoTemplate.Field "RowNum"]]).
Proof.
  apply (getColumns_one_template_per_column
           (Pa := Flag.parsing Examples.oneFile)
           "{{.FileName}},row,{{.RowNum}}"
           ["{{.FileName}}"; "row"; "{{.RowNum}}"]
           [[GoTemplate.Field "FileName"]; [GoTemplate.Text "row"];
            [GoTemplate.Field "RowNum"]]).
  - reflexivity.
  - reflexivity.
  - intros [|[|[|i]]] column Hcolumn; simplify_eq/=; by eexists.
Defined.

Lemma getColumns_first_error_witness :
  getColumns (Pa := Flag.parsing Examples.oneFile) "a,{{.FileName,{{b"
  = Fails "template: unexpected text in action".
Proof.
  apply (proj2 (getColumns_first_error (Pa := Flag.parsing Examples.oneFile)
                  "a,{{.FileName,{{b" "template: unexpected text in action")
           ["a"; "{{.FileName"; "{{b"] 1 "{{.FileName").
  - reflexivity.
  - reflexivity.
  - reflexivity.
  - intros [|i] c Hi Hc; [|lia]. simplify_eq/=. by eexists.
Defined.

(** ** The file loops of the two versions *)
Section LoopVersions.
Context `{P : Platform} `{T : TextTemplate}.

(** X24.  On its defaults (no row limit, the one template that prints the
    file name) the file loop of the latest version ends as the file loop
    of [main.go] does: with the same rows, the same fatal error or the
    same fault. *)
Theorem file_loops_agree_on_defaults (flags : Colate.Flags)
    (source : Template) (files : list string) (data : Sheet)
    (log : list Colate.LogRecord) :
  (int_min ≤ Colate.rowCount flags ≤ 0)%Z →
  (∀ file f, OpenFile file = inr f →
     (Z.of_nat (length (GetRows f (Colate.sheetName flags))) ≤ int_max)%Z) →
  (∀ cd, Execute source cd = (FileName cd, None)) →
  endedOf (Colate.collate flags [source] files (data, log))
  = mainGoLoop (Colate.sheetName flags) (Colate.rowStart flags) files data.
Proof.
  intros Hcount Hlen Hsource. revert data log.
  induction files as [|file files IH]; intros data log; [done|].
  rewrite collate_cons. simpl. unfold mainGoFile.
  rewrite (getRows_unlimited file _ _ _ Hcount (Hlen file)).
  destruct (MainGo.getRows file _ _) as [thisData|e|p]; simpl; try done.
  rewrite (prependColumns_file_name thisData _ source log Hsource). simpl.
  rewrite insertColumn_insertEach, insertEach_in_front.
  apply IH.
Qed.
End LoopVersions.

Lemma file_loops_agree_on_defaults_witness :
  endedOf (Colate.collate (P := Disk.platform Examples.twoFiles)
             (T := GoTemplate.engine) (Colate.mkFlags "Sheet1" 0 0)
             [[GoTemplate.Field "FileName"]] ["in/A.xlsx"; "in/B.xlsx"]
             ([], []))
  = mainGoLoop (P := Disk.platform Examples.twoFiles) "Sheet1" 0
      ["in/A.xlsx"; "in/B.xlsx"] [].
Proof.
  apply (file_loops_agree_on_defaults (P := Disk.platform Examples.twoFiles)
           (T := GoTemplate.engine) (Colate.mkFlags "Sheet1" 0 0)
           [GoTemplate.Field "FileName"] ["in/A.xlsx"; "in/B.xlsx"] [] []).
  - vm_compute. intuition discriminate.
  - intros file f Hf. simpl in Hf.
    repeat case_bool_decide; simplify_eq; vm_compute; discriminate.
  - intros cd. reflexivity.
Defined.

(** ** The file loop of [main.go] *)
Section MainGoLoopFacts.
Context `{P : Platform}.

(** X25.  When [getRows] returns for every file, the file loop of
    [main.go] returns the rows of the files, in the order of the files and
    each file's rows in their order, every row with the base name of its
    file in front; [insertColumn] never makes it panic. *)
Theorem mainGoLoop_concatenates (sheetName : string) (rowStart : Z)
    (files : list string) (perFile : list Sheet) (data : Sheet) :
  Forall2 (λ file rowsF, MainGo.getRows file sheetName rowStart = Returns rowsF)
          files perFile →
  mainGoLoop sheetName rowStart files data
  = Done (data
          ++ concat (zip_with (λ file rowsF,
                                 (λ row, Base file :: row) <$> rowsF)
                              files perFile)).
Proof.
  intros Hfiles. revert data.
  induction Hfiles as [|file rowsF files perFile Hfile _ IH]; intros data.
  { simpl. by rewrite app_nil_r. }
  simpl. unfold mainGoFile. rewrite Hfile.
  rewrite insertColumn_insertEach, insertEach_in_front.
  rewrite IH. by rewrite <- app_assoc.
Qed.
End MainGoLoopFacts.

Lemma mainGoLoop_concatenates_witness :
  mainGoLoop (P := Disk.platform Examples.twoFiles) "Sheet1" 0
    ["in/A.xlsx"; "in/B.xlsx"] []
  = Done ([] ++ concat [[["A.xlsx"; "a1"]; ["A.xlsx"; "a2"]];
                        [["B.xlsx"; "b1"]]]).
Proof.
  apply (mainGoLoop_concatenates (P := Disk.platform Examples.twoFiles)
           "Sheet1" 0 ["in/A.xlsx"; "in/B.xlsx"]
           [[["a1"]; ["a2"]]; [["b1"]]] []).
  repeat constructor.
Defined.

(** * The claims that rest on how a sheet is read and on the file loop *)




Section ReadSheets.
Context {E : Type}.







End ReadSheets.

(** ** The Normalizer on the sheets that reach it *)







(** ** Template failures and the file loop *)
Section FileLoopOutput.
Context `{P : Platform} `{T : TextTemplate}.
Variable flags : Colate.Flags.
Variable columns : list Template.

Lemma processFile_output (file : string) (rows data : Sheet)
    (log : list Colate.LogRecord) :
  Colate.getRows file (Colate.sheetName flags) (Colate.rowStart flags)
    (Colate.rowCount flags) = Returns rows →
  Colate.processFile flags columns file (data, log)
  = Returns (data ++ fileOutput columns file rows,
             log ++ fileWarnings columns file rows).
Proof.
  intros Hrows. unfold Colate.processFile. rewrite Hrows. simpl.
  by rewrite prependColumns_rowByRow.
Qed.

Lemma collate_output (files : list string) (sheets : list Sheet)
    (data : Sheet) (log : list Colate.LogRecord) :
  Forall2 (λ file rows,
             Colate.getRows file (Colate.sheetName flags)
               (Colate.rowStart flags) (Colate.rowCount flags) = Returns rows)
          files sheets →
  Colate.collate flags columns files (data, log)
  = Returns (data ++ concat (zip_with (fileOutput columns) files sheets),
             log ++ mjoin (zip_with (fileWarnings columns) files sheets)).
Proof.
  intros Hfiles. revert data log.
  induction Hfiles as [|file rows files sheets Hfile _ IH]; intros data log.
  { simpl. by rewrite !app_nil_r. }
  rewrite collate_cons, (processFile_output file rows data log Hfile). simpl.
  rewrite IH. by rewrite <- !app_assoc.
Qed.
End FileLoopOutput.

(** C4, amended.  When the evaluation of a template fails on a row of a
    file, the file loop still returns: the cell of that template holds the
    text the template wrote before failing (the empty string when it wrote
    nothing), a warning is in the log, and the output holds the rows of
    every file, the files after that one included, each row with the value
    of every template in front of its cells. *)
Theorem C4_failing_template_does_not_stop_the_run `{P : Platform}
    `{T : TextTemplate} (flags : Colate.Flags) (columns : list Template)
    (files : list string) (sheets : list Sheet) (k ri si : nat)
    (file : string) (rows : Sheet) (row : Row) (source : Template)
    (toPut : string) (e : ExecError) (data : Sheet)
    (log : list Colate.LogRecord) :
  Forall2 (λ file rows,
             Colate.getRows file (Colate.sheetName flags)
               (Colate.rowStart flags) (Colate.rowCount flags) = Returns rows)
          files sheets →
  files !! k = Some file → sheets !! k = Some rows →
  rows !! ri = Some row → columns !! si = Some source →
  Execute source (rowContext (Base file) ri row) = (toPut, Some e) →
  ∃ log',
    Colate.collate flags columns files (data, log)
    = Returns (data ++ concat (zip_with (fileOutput columns) files sheets),
               log ++ log')
    ∧ zip_with (fileOutput columns) files sheets !! k
      = Some (fileOutput columns file rows)
    ∧ (∃ row', fileOutput columns file rows !! ri = Some row'
               ∧ row' !! si = Some toPut)
    ∧ Colate.Warnw "error executing column template" e source
        (rowContext (Base file) ri row) ∈ log'
    ∧ ∀ k' file' rows' ri' row2,
        files !! k' = Some file' → sheets !! k' = Some rows' →
        rows' !! ri' = Some row2 →
        zip_with (fileOutput columns) files sheets !! k'
        = Some (fileOutput columns file' rows')
        ∧ fileOutput columns file' rows' !! ri'
          = Some (((λ source,
                      (Execute source (rowContext (Base file') ri' row2)).1)
                     <$> columns) ++ row2).
Proof.
  intros Hfiles Hfile Hrows Hrow Hsource Hexec.
  exists (mjoin (zip_with (fileWarnings columns) files sheets)).
  assert (Hblock : ∀ k' file' rows',
    files !! k' = Some file' → sheets !! k' = Some rows' →
    zip_with (fileOutput columns) files sheets !! k'
    = Some (fileOutput columns file' rows')).
  { intros k' file' rows' Hf Hs. by rewrite lookup_zip_with, Hf, Hs. }
  assert (Hout : ∀ file' rows' ri' row2, rows' !! ri' = Some row2 →
    fileOutput columns file' rows' !! ri'
    = Some (columnValues columns (rowContext (Base file') ri' row2) ++ row2)).
  { intros file' rows' ri' row2 Hrow2. unfold fileOutput.
    by rewrite list_lookup_imap, Hrow2. }
  split; [by apply collate_output|]. split; [by apply Hblock|].
  split; [|split].
  - eexists. split; [by apply Hout|].
    rewrite lookup_app_l.
    + unfold columnValues. rewrite list_lookup_fmap, Hsource. simpl.
      by rewrite Hexec.
    + unfold columnValues. rewrite length_fmap. by eapply lookup_lt_Some.
  - apply list_elem_of_join. exists (fileWarnings columns file rows). split.
    + unfold fileWarnings. apply list_elem_of_join.
      exists (columnWarnings columns (rowContext (Base file) ri row)). split.
      * unfold columnWarnings. apply list_elem_of_omap. exists source.
        split; [by eapply list_elem_of_lookup_2|]. simpl. by rewrite Hexec.
      * apply list_elem_of_lookup. exists ri.
        by rewrite list_lookup_imap, Hrow.
    + apply list_elem_of_lookup. exists k.
      by rewrite lookup_zip_with, Hfile, Hrows.
  - intros k' file' rows' ri' row2 Hf Hs Hrow2.
    split; [by apply Hblock | by apply Hout].
Qed.

Lemma C4_failing_template_does_not_stop_the_run_witness :
  ∃ log',
    Colate.collate (P := Padded.platform Stored.narrowFirst)
      (T := GoTemplate.engine) (Colate.mkFlags "Sheet1" 0 0)
      [[GoTemplate.Text "x"; GoTemplate.IndexCells 1];
       [GoTemplate.Field "FileName"]]
      ["in/A.xlsx"; "in/B.xlsx"] ([], [])
    = Returns ([["x"; "A.xlsx"; "a1"]; ["x"; "A.xlsx"; "a2"];
                ["xb2"; "B.xlsx"; "b1"; "b2"]], log')
    ∧ Colate.Warnw "error executing column template"
        (GoTemplate.IndexError 1)
        [GoTemplate.Text "x"; GoTemplate.IndexCells 1]
        (rowContext "A.xlsx" 0 ["a1"]) ∈ log'.
Proof.
  destruct (C4_failing_template_does_not_stop_the_run
              (P := Padded.platform Stored.narrowFirst)
              (T := GoTemplate.engine) (Colate.mkFlags "Sheet1" 0 0)
              [[GoTemplate.Text "x"; GoTemplate.IndexCells 1];
               [GoTemplate.Field "FileName"]]
              ["in/A.xlsx"; "in/B.xlsx"]
              [[["a1"]; ["a2"]]; [["b1"; "b2"]]] 0 0 0
              "in/A.xlsx" [["a1"]; ["a2"]] ["a1"]
              [GoTemplate.Text "x"; GoTemplate.IndexCells 1] "x"
              (GoTemplate.IndexError 1) [] []
              ltac:(repeat constructor) eq_refl eq_refl eq_refl eq_refl
              eq_refl)
    as (log' & Hrun & _ & _ & Hwarn & _).
  exists log'. split; [exact Hrun | exact Hwarn].
Defined.
